(** * EuroFencing scraper: row parsing, page fetching and sweeps

    A shallow embedding of [src/eurofencing_scraper.py].  Python [str]
    values are Rocq strings whose characters are read as the code points
    U+0000..U+00FF; Python [int] values are [Z]; the [float] produced by
    [float(text)] is represented by the exact rational value of the decimal
    literal, reduced to lowest terms (the rounding to a binary double is not
    part of the model; 0.0 and 7.5 are exact in both). *)

From Stdlib Require Import String Ascii List ZArith QArith Qreduction Bool Lia.
From Stdlib Require Import DecimalString DecimalPos.
Import ListNotations.
Local Open Scope string_scope.
Local Open Scope Z_scope.

(** ** Python string primitives used by the scraper *)

Module PyStr.

(** Code point of a character. *)
Definition ord (c : ascii) : N := N_of_ascii c.

(** [str.isspace] on one character, for code points below 256:
    U+0009..U+000D, U+001C..U+0020, U+0085 and U+00A0. *)
Definition isspace_char (c : ascii) : bool :=
  let n := ord c in
  ((9 <=? n) && (n <=? 13) || (28 <=? n) && (n <=? 32)
   || (n =? 133) || (n =? 160))%N.

Fixpoint lstrip (s : string) : string :=
  match s with
  | EmptyString => EmptyString
  | String c r => if isspace_char c then lstrip r else s
  end.

Fixpoint rev_acc (s acc : string) : string :=
  match s with
  | EmptyString => acc
  | String c r => rev_acc r (String c acc)
  end.

Definition reverse (s : string) : string := rev_acc s EmptyString.

Definition rstrip (s : string) : string := reverse (lstrip (reverse s)).

(** [s.strip()] *)
Definition strip (s : string) : string := rstrip (lstrip s).

(** [str.lower] on one character: A..Z and the Latin-1 capitals
    U+00C0..U+00DE (U+00D7, the multiplication sign, excepted) move up by 32. *)
Definition lower_char (c : ascii) : ascii :=
  let n := ord c in
  if ((65 <=? n) && (n <=? 90)
      || (192 <=? n) && (n <=? 222) && negb (n =? 215))%N
  then ascii_of_N (n + 32) else c.

(** [s.lower()] *)
Fixpoint lower (s : string) : string :=
  match s with
  | EmptyString => EmptyString
  | String c r => String (lower_char c) (lower r)
  end.

(** [s.startswith(p)] *)
Fixpoint startswith (p s : string) : bool :=
  match p, s with
  | EmptyString, _ => true
  | String _ _, EmptyString => false
  | String a p', String b s' => Ascii.eqb a b && startswith p' s'
  end.

(** [sub in s] *)
Fixpoint contains (sub s : string) : bool :=
  startswith sub s
  || match s with
     | EmptyString => false
     | String _ r => contains sub r
     end.

(** Characters with the Unicode property Nd below U+0100: the ten ASCII
    digits.  These are the digits [int] and [float] accept. *)
Definition isdecimal_char (c : ascii) : bool :=
  let n := ord c in ((48 <=? n) && (n <=? 57))%N.

(** [str.isdigit] on one character: the decimal digits together with the
    superscript digits U+00B2, U+00B3 and U+00B9. *)
Definition isdigit_char (c : ascii) : bool :=
  let n := ord c in
  isdecimal_char c || ((n =? 178) || (n =? 179) || (n =? 185))%N.

Fixpoint forallb_str (p : ascii -> bool) (s : string) : bool :=
  match s with
  | EmptyString => true
  | String c r => p c && forallb_str p r
  end.

(** [s.isdigit()]: at least one character and every character a digit. *)
Definition isdigit (s : string) : bool :=
  match s with
  | EmptyString => false
  | String _ _ => forallb_str isdigit_char s
  end.

(** [s.replace(old, '')] for a one-character [old]. *)
Fixpoint remove_char (old : ascii) (s : string) : string :=
  match s with
  | EmptyString => EmptyString
  | String c r =>
      if Ascii.eqb c old then remove_char old r
      else String c (remove_char old r)
  end.

Definition digit_value (c : ascii) : Z := Z.of_N (ord c) - 48.

(** Value of a string of decimal digits, most significant first. *)
Fixpoint decimal_value (acc : Z) (s : string) : Z :=
  match s with
  | EmptyString => acc
  | String c r => decimal_value (10 * acc + digit_value c) r
  end.

Fixpoint count_char (x : ascii) (s : string) : nat :=
  match s with
  | EmptyString => O
  | String c r => ((if Ascii.eqb c x then 1 else 0) + count_char x r)%nat
  end.

(** The part of [s] after its first occurrence of [x] (empty if none). *)
Fixpoint after_char (x : ascii) (s : string) : string :=
  match s with
  | EmptyString => EmptyString
  | String c r => if Ascii.eqb c x then r else after_char x r
  end.

(** [str(n)] for an integer. *)
Definition str_of_int (n : Z) : string :=
  match n with
  | Z0 => "0"
  | Zpos p => NilEmpty.string_of_uint (Pos.to_uint p)
  | Zneg p => String "-" (NilEmpty.string_of_uint (Pos.to_uint p))
  end.

End PyStr.

(** ** Exceptions and results *)

Inductive Exn : Type :=
  | ValueError
  | IndexError
  | TypeError
  | AttributeError
  | NoSuchElementException
  | TimeoutException
  | WebDriverException.

Inductive Result (A : Type) : Type :=
  | Ok (a : A)
  | Raise (e : Exn).

Arguments Ok {A} a.
Arguments Raise {A} e.

Definition rbind {A B} (r : Result A) (k : A -> Result B) : Result B :=
  match r with
  | Ok a => k a
  | Raise e => Raise e
  end.

Declare Scope result_scope.
Delimit Scope result_scope with result.
Notation "x <- r ;; k" := (rbind r (fun x => k))
  (at level 61, r at next level, right associativity) : result_scope.

(** [int(s)] on a string that passed [s.isdigit()]: such a string has no
    sign, blank or underscore, and [int] accepts it exactly when every
    character is a decimal digit.  (The interpreter's optional bound on the
    number of digits of a literal is taken as switched off.) *)
Definition int_of_digits (s : string) : Result Z :=
  if negb (String.eqb s "") && PyStr.forallb_str PyStr.isdecimal_char s
  then Ok (PyStr.decimal_value 0 s)
  else Raise ValueError.

(** [float(s)] on a string that passed [s.replace('.','').isdigit()]: such a
    string is made of digit characters and dots, with at least one digit.
    [float] accepts it exactly when the digits are decimal digits and there
    is at most one dot. *)
Definition float_of_decimal (s : string) : Result Q :=
  let digits := PyStr.remove_char "." s in
  if negb (String.eqb digits "")
     && PyStr.forallb_str PyStr.isdecimal_char digits
     && (PyStr.count_char "." s <=? 1)%nat
  then Ok (Qred (PyStr.decimal_value 0 digits
                 # Z.to_pos (10 ^ Z.of_nat (String.length (PyStr.after_char "." s)))))
  else Raise ValueError.

(** ** Records *)

Module FencerProfile.
Record t : Type := mk {
  licence : string;
  first_name : string;
  last_name : string;
  club : string;
  nation : string;
  birth_year : Z;
  gender : string;
  handedness : string
}.
End FencerProfile.

Module RankingEntry.
Record t : Type := mk {
  rank : Z;
  competition : string;
  venue : string;
  nation : string;
  category : string;
  discipline : string;
  coefficient : Q;
  season : string;
  weapon : string;
  age_group : string;
  gender : string
}.
End RankingEntry.

(** ** Row parsing

    A row is the list of the texts of its [td] cells. *)

Definition Row : Type := list string.

(** [cells[i].text] *)
Definition cell_text (cells : Row) (i : nat) : Result string :=
  match nth_error cells i with
  | Some t => Ok t
  | None => Raise IndexError
  end.

(** ["M" if "men" in gender.lower() else "F" if "women" in gender.lower() else ""] *)
Definition gender_marker (gender : string) : string :=
  if PyStr.contains "men" (PyStr.lower gender) then "M"
  else if PyStr.contains "women" (PyStr.lower gender) then "F"
  else "".

(** [int(t) if t.isdigit() else 0] *)
Definition int_or_zero (t : string) : Result Z :=
  if PyStr.isdigit t then int_of_digits t else Ok 0.

Local Open Scope result_scope.

(** Body of the [try] block of the fencer row loop.  [Ok None]: the row is
    too short and nothing is appended; [Ok (Some f)]: [f] is appended;
    [Raise e]: the construction of the record raised [e]. *)
Definition parse_fencer_row (gender : string) (cells : Row)
  : Result (option FencerProfile.t) :=
  if (7 <=? length cells)%nat then
    c0 <- cell_text cells 0 ;;
    c1 <- cell_text cells 1 ;;
    c2 <- cell_text cells 2 ;;
    c3 <- cell_text cells 3 ;;
    c4 <- cell_text cells 4 ;;
    c5 <- cell_text cells 5 ;;
    year <- int_or_zero (PyStr.strip c5) ;;
    hand <- (if (6 <? length cells)%nat
             then c6 <- cell_text cells 6 ;; Ok (PyStr.strip c6)
             else Ok "") ;;
    Ok (Some {| FencerProfile.licence := PyStr.strip c0;
                FencerProfile.last_name := PyStr.strip c1;
                FencerProfile.first_name := PyStr.strip c2;
                FencerProfile.club := PyStr.strip c3;
                FencerProfile.nation := PyStr.strip c4;
                FencerProfile.birth_year := year;
                FencerProfile.gender := gender_marker gender;
                FencerProfile.handedness := hand |})
  else Ok None.

(** The coefficient expression:
    [float(t) if len(cells) > 6 and t.replace('.','').isdigit() else 0.0]
    with [t = cells[6].text.strip()]. *)
Definition coefficient_of (cells : Row) : Result Q :=
  if (6 <? length cells)%nat then
    c6 <- cell_text cells 6 ;;
    if PyStr.isdigit (PyStr.remove_char "." (PyStr.strip c6))
    then float_of_decimal (PyStr.strip c6)
    else Ok 0%Q
  else Ok 0%Q.

(** Body of the [try] block of the ranking row loop. *)
Definition parse_ranking_row (gender weapon age_category season : string)
  (cells : Row) : Result (option RankingEntry.t) :=
  if (6 <=? length cells)%nat then
    c0 <- cell_text cells 0 ;;
    rk <- int_or_zero (PyStr.strip c0) ;;
    c1 <- cell_text cells 1 ;;
    c2 <- cell_text cells 2 ;;
    c3 <- cell_text cells 3 ;;
    c4 <- cell_text cells 4 ;;
    c5 <- cell_text cells 5 ;;
    coef <- coefficient_of cells ;;
    Ok (Some {| RankingEntry.rank := rk;
                RankingEntry.competition := PyStr.strip c1;
                RankingEntry.venue := PyStr.strip c2;
                RankingEntry.nation := PyStr.strip c3;
                RankingEntry.category := PyStr.strip c4;
                RankingEntry.discipline := PyStr.strip c5;
                RankingEntry.coefficient := coef;
                RankingEntry.season := season;
                RankingEntry.weapon := weapon;
                RankingEntry.age_group := age_category;
                RankingEntry.gender := gender |})
  else Ok None.

Local Close Scope result_scope.


(** ** The browser session and the remote site

    The scraper reaches the site only through a browser.  The browser, the
    site behind it and the clock form the world [W]: [dom] is what the
    current page shows, [act] performs one driver command, which changes the
    world and may raise. *)

Inductive Locator : Type :=
  | ByName (name : string)
  | ByCss (selector : string)
  | ByTag (tag : string)
  | ByXPath (path : string).

Inductive Action : Type :=
  | Launch (headless : bool)
  | Quit
  | Get (url : string)
  | WaitPresent (l : Locator) (timeout : nat)
  | WaitClickable (l : Locator) (timeout : nat)
  | Click (l : Locator)
  | SelectByValue (l : Locator) (value : string)
  | SelectNthByValue (index : nat) (value : string)
  | Clear (l : Locator)
  | SendKeys (l : Locator) (text : string)
  | Sleep (seconds : nat).

Record Dom : Type := mkDom {
  (** per [select] element, the [value] attribute of each of its options *)
  dom_selects : list (list (option string));
  (** the [data-page] attribute of each [a] element, in document order *)
  dom_page_links : list (option string);
  (** per [tr] element, the texts of its [td] cells *)
  dom_rows : list Row
}.

Class Browser (W : Type) : Type := {
  dom : W -> Dom;
  act : Action -> W -> Result unit * W
}.

(** ** The scraper object *)

Record FilterConfig : Type := mkFilterConfig {
  genders : list string;
  weapons : list string;
  age_categories : list string;
  seasons : list string;
  countries : list string
}.

Inductive LogEvent : Type :=
  | CookieConsentHandled
  | CookieConsentFailed (e : Exn)
  | FoundCountries (n : nat)
  | ErrorCountriesList (e : Exn)
  | PageNotFound (page : Z)
  | ErrorFencerRow (e : Exn)
  | ScrapedFencers (n : nat) (page : Z)
  | ErrorFencersPage (page : Z) (e : Exn)
  | ErrorRankingRow (e : Exn)
  | ScrapedRankings (n : nat) (gender weapon age_category season : string)
  | ErrorRankings (e : Exn)
  | ScrapingCountry (country : string)
  | CompletedCountry (country : string) (total : nat)
  | ScrapingCombination (gender weapon age_category season : string)
  | MainStarting
  | MainFoundCountries (n : nat)
  | MainPhase (n : nat)
  | MainScrapedFencers (n : nat)
  | MainScrapedRankings (n : nat)
  | MainError (e : Exn).

(** One invocation of a page fetcher.  A fencer page fetch is recorded when
    it returns, with the number of profiles it returned; a rankings fetch is
    recorded when it is entered. *)
Inductive Call : Type :=
  | FencersPageCall (page : Z) (country : string) (returned : nat)
  | RankingsCall (gender weapon age_category season : string).

(** The state of an [EuroFencingScraper] together with its world.
    [driver] tells whether [self.driver] is set; [history] is a ghost field
    listing the fetcher invocations so far, oldest first. *)
Record Scraper (W : Type) : Type := mkScraper {
  world : W;
  driver : bool;
  headless : bool;
  log : list LogEvent;
  fencers_data : list FencerProfile.t;
  rankings_data : list RankingEntry.t;
  filter_config : FilterConfig;
  history : list Call
}.

Arguments mkScraper {W}.
Arguments world {W}.
Arguments driver {W}.
Arguments headless {W}.
Arguments log {W}.
Arguments fencers_data {W}.
Arguments rankings_data {W}.
Arguments filter_config {W}.
Arguments history {W}.

Definition base_url : string := "https://www.eurofencing.info".

Definition default_filter_config : FilterConfig :=
  {| genders := ["men"; "women"];
     weapons := ["foil"; "epee"; "sabre"];
     age_categories := ["cadet"; "u23"; "u14"];
     seasons := ["2025"; "2024"; "2023"; "2022"; "2021"; "2020"; "2019"; "2018"];
     countries := [] |}.

(** [EuroFencingScraper.__init__] *)
Definition init {W} (w : W) (headless : bool) : Scraper W :=
  {| world := w; driver := false; headless := headless; log := [];
     fencers_data := []; rankings_data := [];
     filter_config := default_filter_config; history := [] |}.

Definition with_world {W} (w : W) (s : Scraper W) : Scraper W :=
  mkScraper w (driver s) (headless s) (log s) (fencers_data s)
            (rankings_data s) (filter_config s) (history s).

Definition with_driver {W} (d : bool) (s : Scraper W) : Scraper W :=
  mkScraper (world s) d (headless s) (log s) (fencers_data s)
            (rankings_data s) (filter_config s) (history s).

Definition with_log {W} (l : list LogEvent) (s : Scraper W) : Scraper W :=
  mkScraper (world s) (driver s) (headless s) l (fencers_data s)
            (rankings_data s) (filter_config s) (history s).

Definition with_fencers_data {W} (d : list FencerProfile.t) (s : Scraper W)
  : Scraper W :=
  mkScraper (world s) (driver s) (headless s) (log s) d
            (rankings_data s) (filter_config s) (history s).

Definition with_rankings_data {W} (d : list RankingEntry.t) (s : Scraper W)
  : Scraper W :=
  mkScraper (world s) (driver s) (headless s) (log s) (fencers_data s)
            d (filter_config s) (history s).

Definition with_countries {W} (cs : list string) (s : Scraper W) : Scraper W :=
  let fc := filter_config s in
  mkScraper (world s) (driver s) (headless s) (log s) (fencers_data s)
            (rankings_data s)
            (mkFilterConfig (genders fc) (weapons fc) (age_categories fc)
                            (seasons fc) cs)
            (history s).

Definition with_history {W} (h : list Call) (s : Scraper W) : Scraper W :=
  mkScraper (world s) (driver s) (headless s) (log s) (fencers_data s)
            (rankings_data s) (filter_config s) h.

(** ** A state and exception monad for the methods *)

Definition M (W A : Type) : Type := Scraper W -> Result A * Scraper W.

Definition ret {W A} (a : A) : M W A := fun s => (Ok a, s).

Definition raise {W A} (e : Exn) : M W A := fun s => (Raise e, s).

Definition bind {W A B} (m : M W A) (k : A -> M W B) : M W B :=
  fun s =>
    match m s with
    | (Ok a, s') => k a s'
    | (Raise e, s') => (Raise e, s')
    end.

(** [try: m  except <classes>: h], the handler receiving the exception. *)
Definition try_except {W A} (m : M W A) (classes : Exn -> bool)
  (h : Exn -> M W A) : M W A :=
  fun s =>
    match m s with
    | (Ok a, s') => (Ok a, s')
    | (Raise e, s') => if classes e then h e s' else (Raise e, s')
    end.

(** [try: m  except Exception as e: h], for a handler that cannot raise. *)
Definition try_except_all {W A} (m : M W A)
  (h : Exn -> Scraper W -> A * Scraper W) : Scraper W -> A * Scraper W :=
  fun s =>
    match m s with
    | (Ok a, s') => (a, s')
    | (Raise e, s') => h e s'
    end.

Definition total {W A} (f : Scraper W -> A * Scraper W) : M W A :=
  fun s => let (a, s') := f s in (Ok a, s').

Declare Scope monad_scope.
Delimit Scope monad_scope with monad.
Notation "x <- m ;; k" := (bind m (fun x => k))
  (at level 61, m at next level, right associativity) : monad_scope.
Notation "m ;; k" := (bind m (fun _ => k))
  (at level 61, right associativity) : monad_scope.

Definition when {W} (b : bool) (m : M W unit) : M W unit :=
  if b then m else ret tt.

(** Truth value of a string: non-empty. *)
Definition truthy_str (s : string) : bool := negb (String.eqb s "").

(** Truth value of an optional integer argument: set and non-zero. *)
Definition truthy_int (n : option Z) : bool :=
  match n with
  | Some z => negb (z =? 0)
  | None => false
  end.

Definition is_timeout (e : Exn) : bool :=
  match e with TimeoutException => true | _ => false end.

Definition is_no_such_element (e : Exn) : bool :=
  match e with NoSuchElementException => true | _ => false end.

Definition is_value_or_index_error (e : Exn) : bool :=
  match e with ValueError | IndexError => true | _ => false end.

(** ** Methods of [EuroFencingScraper] *)

Section Methods.

Context {W : Type} `{Browser W}.

Local Open Scope monad_scope.

Definition log_event (e : LogEvent) : M W unit :=
  fun s => (Ok tt, with_log (log s ++ [e]) s).

(** Ghost step: record a fetcher invocation. *)
Definition note_call (c : Call) : M W unit :=
  fun s => (Ok tt, with_history (history s ++ [c]) s).

(** A command sent through [self.driver]; without a driver the attribute
    access on [None] raises. *)
Definition drive (a : Action) : M W unit :=
  fun s =>
    if driver s
    then let (r, w) := act a (world s) in (r, with_world w s)
    else (Raise AttributeError, s).

Definition current_dom : M W Dom :=
  fun s =>
    if driver s then (Ok (dom (world s)), s) else (Raise AttributeError, s).

(** [time.sleep(n)] *)
Definition sleep (n : nat) : M W unit :=
  fun s => (Ok tt, with_world (snd (act (Sleep n) (world s))) s).

Definition setup_driver : M W unit :=
  fun s =>
    match act (Launch (headless s)) (world s) with
    | (Ok _, w) => (Ok tt, with_driver true (with_world w s))
    | (Raise e, w) => (Raise e, with_world w s)
    end.

Definition consent_selectors : list string :=
  [ "//button[contains(text(), 'Allow')]";
    "//button[contains(text(), 'Accept')]";
    "//button[contains(text(), 'OK')]";
    ".cookie-accept";
    "#cookie-accept" ].

Definition consent_locator (selector : string) : Locator :=
  if PyStr.startswith "//" selector then ByXPath selector else ByCss selector.

Fixpoint consent_loop (selectors : list string) : M W unit :=
  match selectors with
  | [] => ret tt
  | selector :: rest =>
      handled <-
        try_except
          (drive (WaitClickable (consent_locator selector) 5) ;;
           drive (Click (consent_locator selector)) ;;
           log_event CookieConsentHandled ;;
           sleep 2 ;;
           ret true)
          is_timeout
          (fun _ => ret false) ;;
      if handled then ret tt else consent_loop rest
  end.

Definition handle_cookie_consent : Scraper W -> unit * Scraper W :=
  try_except_all (consent_loop consent_selectors)
    (fun e s => (tt, with_log (log s ++ [CookieConsentFailed e]) s)).

(** The loop over [options[1:]] keeping the three-letter values. *)
Definition country_values (options : list (option string)) : list string :=
  flat_map
    (fun o =>
       match o with
       | Some value =>
           if truthy_str value && (String.length value =? 3)%nat
           then [value] else []
       | None => []
       end)
    (tl options).

(** The loop over the select elements.  [None] stands for leaving the loop
    without having returned. *)
Fixpoint countries_loop (selects : list (list (option string)))
  : M W (option (list string)) :=
  match selects with
  | [] => ret None
  | options :: rest =>
      if (50 <? length options)%nat then
        (fun s => (Ok tt, with_countries (country_values options) s)) ;;
        log_event (FoundCountries (length (country_values options))) ;;
        ret (Some (country_values options))
      else countries_loop rest
  end.

(** [get_countries_list]; the result [None] is Python's [None], returned
    when the end of the function body is reached. *)
Definition get_countries_list : Scraper W -> option (list string) * Scraper W :=
  try_except_all
    (drive (Get (base_url ++ "/competitions/fencers")) ;;
     total handle_cookie_consent ;;
     drive (WaitPresent (ByCss "select") 10) ;;
     d <- current_dom ;;
     countries_loop (dom_selects d))
    (fun e s => (Some [], with_log (log s ++ [ErrorCountriesList e]) s)).

Definition page_link_xpath (page : Z) : string :=
  "//a[contains(@data-page, '" ++ PyStr.str_of_int page ++ "')]".

(** Whether some [a] element satisfies [contains(@data-page, 'page')]; an
    absent attribute has the empty string value. *)
Definition has_page_link (d : Dom) (page : Z) : bool :=
  existsb
    (fun a =>
       PyStr.contains (PyStr.str_of_int page)
         match a with Some v => v | None => "" end)
    (dom_page_links d).

(** [self.driver.find_element(By.XPATH, page_link_xpath page)] *)
Definition find_page_link (page : Z) : M W unit :=
  d <- current_dom ;;
  if has_page_link d page then ret tt else raise NoSuchElementException.

(** The loop over [rows[1:]] of [scrape_fencers_page]. *)
Fixpoint fencer_rows_loop (gender : string) (rows : list Row)
  (fencers : list FencerProfile.t) : M W (list FencerProfile.t) :=
  match rows with
  | [] => ret fencers
  | cells :: rest =>
      match parse_fencer_row gender cells with
      | Ok (Some fencer) => fencer_rows_loop gender rest (fencers ++ [fencer])
      | Ok None => fencer_rows_loop gender rest fencers
      | Raise e =>
          if is_value_or_index_error e
          then log_event (ErrorFencerRow e) ;;
               fencer_rows_loop gender rest fencers
          else raise e
      end
  end.

(** First part of [scrape_fencers_page]: load the search view, fill in the
    filters that are set, submit and wait for the results table. *)
Definition submit_fencer_search (country first_name last_name gender : string)
  : M W unit :=
  drive (Get (base_url ++ "/competitions/fencers")) ;;
  when (truthy_str country)
    (drive (SelectByValue (ByName "country") country)) ;;
  when (truthy_str first_name)
    (drive (Clear (ByName "firstName")) ;;
     drive (SendKeys (ByName "firstName") first_name)) ;;
  when (truthy_str last_name)
    (drive (Clear (ByName "lastName")) ;;
     drive (SendKeys (ByName "lastName") last_name)) ;;
  when (truthy_str gender)
    (drive (SelectByValue (ByName "gender") gender)) ;;
  drive (Click (ByCss "button[type='submit']")) ;;
  drive (WaitPresent (ByTag "table") 15).

(** Second part: [if page > 1: try ... except NoSuchElementException].  The
    result [false] stands for the [return []] of the handler. *)
Definition goto_page (page : Z) : M W bool :=
  if 1 <? page then
    try_except
      (find_page_link page ;;
       drive (Click (ByXPath (page_link_xpath page))) ;;
       sleep 3 ;;
       ret true)
      is_no_such_element
      (fun _ => log_event (PageNotFound page) ;; ret false)
  else ret true.

(** Third part: read the table. *)
Definition extract_fencers (page : Z) (gender : string)
  : M W (list FencerProfile.t) :=
  d <- current_dom ;;
  fencers <- fencer_rows_loop gender (tl (dom_rows d)) [] ;;
  log_event (ScrapedFencers (length fencers) page) ;;
  ret fencers.

Definition scrape_fencers_page (page : Z)
  (country first_name last_name gender : string)
  : Scraper W -> list FencerProfile.t * Scraper W :=
  fun s =>
    let (fencers, s') :=
      try_except_all
        (submit_fencer_search country first_name last_name gender ;;
         on_page <- goto_page page ;;
         if on_page : bool then extract_fencers page gender else ret [])
        (fun e s => ([], with_log (log s ++ [ErrorFencersPage page e]) s))
        s in
    (fencers,
     snd (note_call (FencersPageCall page country (length fencers)) s')).

(** The loop over [rows[1:]] of [scrape_rankings]. *)
Fixpoint ranking_rows_loop (gender weapon age_category season : string)
  (rows : list Row) (rankings : list RankingEntry.t)
  : M W (list RankingEntry.t) :=
  match rows with
  | [] => ret rankings
  | cells :: rest =>
      match parse_ranking_row gender weapon age_category season cells with
      | Ok (Some ranking) =>
          ranking_rows_loop gender weapon age_category season rest
            (rankings ++ [ranking])
      | Ok None =>
          ranking_rows_loop gender weapon age_category season rest rankings
      | Raise e =>
          if is_value_or_index_error e
          then log_event (ErrorRankingRow e) ;;
               ranking_rows_loop gender weapon age_category season rest rankings
          else raise e
      end
  end.

Definition scrape_rankings (gender weapon age_category season country : string)
  : Scraper W -> list RankingEntry.t * Scraper W :=
  try_except_all
    (note_call (RankingsCall gender weapon age_category season) ;;
     drive (Get (base_url ++ "/rankings/individual-rankings")) ;;
     d <- current_dom ;;
     when (5 <=? length (dom_selects d))%nat
       (drive (SelectNthByValue 0 gender) ;; sleep 1 ;;
        drive (SelectNthByValue 1 weapon) ;; sleep 1 ;;
        drive (SelectNthByValue 2 age_category) ;; sleep 1 ;;
        drive (SelectNthByValue 3 season) ;; sleep 1 ;;
        when (truthy_str country)
          (drive (SelectNthByValue 4 country) ;; sleep 1)) ;;
     drive (Click (ByCss "button[type='submit']")) ;;
     drive (WaitPresent (ByTag "table") 15) ;;
     d' <- current_dom ;;
     rankings <-
       ranking_rows_loop gender weapon age_category season (tl (dom_rows d')) [] ;;
     log_event (ScrapedRankings (length rankings)
                  gender weapon age_category season) ;;
     ret rankings)
    (fun e s => ([], with_log (log s ++ [ErrorRankings e]) s)).

End Methods.

(** ** Sweeps

    The sweeps are modelled without interruption: no [KeyboardInterrupt] is
    delivered, so their [except KeyboardInterrupt] clauses do not appear. *)

Section Sweeps.

Context {W : Type} `{Browser W}.

Definition emit (e : LogEvent) (s : Scraper W) : Scraper W :=
  snd (log_event e s).

Definition pause (n : nat) (s : Scraper W) : Scraper W := snd (sleep n s).

(** [if not self.driver: self.setup_driver()] *)
Definition ensure_driver : M W unit :=
  fun s => if driver s then (Ok tt, s) else setup_driver s.

(** [max_pages and page > max_pages] *)
Definition past_ceiling (max_pages : option Z) (page : Z) : bool :=
  truthy_int max_pages
  && match max_pages with Some m => m <? page | None => false end.

(** The [while True] loop of [scrape_all_fencers] for one country.  Each
    iteration uses one unit of [fuel]; [None] means the fuel ran out. *)
Fixpoint pages_loop (fuel : nat) (max_pages : option Z) (country : string)
  (page : Z) (all_fencers : list FencerProfile.t) (s : Scraper W)
  : option (list FencerProfile.t * Scraper W) :=
  match fuel with
  | O => None
  | S fuel' =>
      if past_ceiling max_pages page then Some (all_fencers, s)
      else
        let (fencers, s1) := scrape_fencers_page page country "" "" "" s in
        match fencers with
        | [] => Some (all_fencers, s1)
        | _ :: _ =>
            pages_loop fuel' max_pages country (page + 1)
              (all_fencers ++ fencers) (pause 2 s1)
        end
  end.

(** The loop over [countries_to_scrape]. *)
Fixpoint countries_sweep (fuel : nat) (max_pages : option Z)
  (countries_to_scrape : list string) (all_fencers : list FencerProfile.t)
  (s : Scraper W) : option (list FencerProfile.t * Scraper W) :=
  match countries_to_scrape with
  | [] => Some (all_fencers, s)
  | country :: rest =>
      match pages_loop fuel max_pages country 1 all_fencers
              (emit (ScrapingCountry country) s) with
      | None => None
      | Some (all', s') =>
          countries_sweep fuel max_pages rest all'
            (emit (CompletedCountry country (length all')) s')
      end
  end.

(** [countries or self.filter_config['countries'][:10]] *)
Definition countries_to_scrape (countries_arg : option (list string))
  (s : Scraper W) : list string :=
  match countries_arg with
  | Some (c :: cs) => c :: cs
  | _ => firstn 10 (countries (filter_config s))
  end.

Definition scrape_all_fencers (fuel : nat) (max_pages : option Z)
  (countries_arg : option (list string)) (s : Scraper W)
  : option (Result (list FencerProfile.t) * Scraper W) :=
  let todo := countries_to_scrape countries_arg s in
  match ensure_driver s with
  | (Raise e, s1) => Some (Raise e, s1)
  | (Ok _, s1) =>
      match countries_sweep fuel max_pages todo [] s1 with
      | None => None
      | Some (all_fencers, s2) =>
          Some (Ok all_fencers, with_fencers_data all_fencers s2)
      end
  end.

(** [limit_combinations and combinations_scraped >= limit_combinations] *)
Definition limit_reached (limit_combinations : option Z)
  (combinations_scraped : Z) : bool :=
  truthy_int limit_combinations
  && match limit_combinations with
     | Some n => n <=? combinations_scraped
     | None => false
     end.

(** The local variables [all_rankings] and [combinations_scraped]. *)
Definition Progress : Type := (list RankingEntry.t * Z)%type.

Fixpoint seasons_loop (limit : option Z) (gender weapon age_category : string)
  (todo : list string) (p : Progress) (s : Scraper W) : Progress * Scraper W :=
  match todo with
  | [] => (p, s)
  | season :: rest =>
      if limit_reached limit (snd p) then (p, s)
      else
        let (rankings, s1) :=
          scrape_rankings gender weapon age_category season ""
            (emit (ScrapingCombination gender weapon age_category season) s) in
        seasons_loop limit gender weapon age_category rest
          ((fst p ++ rankings)%list, snd p + 1) (pause 3 s1)
  end.

Fixpoint age_categories_loop (limit : option Z) (gender weapon : string)
  (todo : list string) (p : Progress) (s : Scraper W) : Progress * Scraper W :=
  match todo with
  | [] => (p, s)
  | age_category :: rest =>
      let (p1, s1) :=
        seasons_loop limit gender weapon age_category
          (seasons (filter_config s)) p s in
      if limit_reached limit (snd p1) then (p1, s1)
      else age_categories_loop limit gender weapon rest p1 s1
  end.

Fixpoint weapons_loop (limit : option Z) (gender : string)
  (todo : list string) (p : Progress) (s : Scraper W) : Progress * Scraper W :=
  match todo with
  | [] => (p, s)
  | weapon :: rest =>
      let (p1, s1) :=
        age_categories_loop limit gender weapon
          (age_categories (filter_config s)) p s in
      if limit_reached limit (snd p1) then (p1, s1)
      else weapons_loop limit gender rest p1 s1
  end.

Fixpoint genders_loop (limit : option Z) (todo : list string) (p : Progress)
  (s : Scraper W) : Progress * Scraper W :=
  match todo with
  | [] => (p, s)
  | gender :: rest =>
      let (p1, s1) :=
        weapons_loop limit gender (weapons (filter_config s)) p s in
      if limit_reached limit (snd p1) then (p1, s1)
      else genders_loop limit rest p1 s1
  end.

Definition scrape_all_rankings (limit_combinations : option Z)
  : M W (list RankingEntry.t) :=
  fun s =>
    match ensure_driver s with
    | (Raise e, s1) => (Raise e, s1)
    | (Ok _, s1) =>
        let (p, s2) :=
          genders_loop limit_combinations (genders (filter_config s1))
            ([], 0) s1 in
        (Ok (fst p), with_rankings_data (fst p) s2)
    end.

(** [cleanup] *)
Definition cleanup (s : Scraper W) : Result unit * Scraper W :=
  if driver s then drive Quit s else (Ok tt, s).

Definition default_sample_countries : list string :=
  ["QAT"; "UAE"; "SAU"; "FRA"; "GER"].

(** [len(countries)] on the value returned by [get_countries_list]. *)
Definition py_len (countries : option (list string)) : Result nat :=
  match countries with
  | Some l => Ok (length l)
  | None => Raise TypeError
  end.

(** [countries[:5] if countries else ["QAT", "UAE", "SAU", "FRA", "GER"]] *)
Definition sample_countries (countries : option (list string)) : list string :=
  match countries with
  | Some (c :: cs) => firstn 5 (c :: cs)
  | _ => default_sample_countries
  end.

(** The [try] block of [main], up to the end of the two sample sweeps (the
    exports that follow are outside the model).  The result lists the
    countries the fencer sweep was started with. *)
Definition main_body (fuel : nat) (s : Scraper W)
  : option (Result (list string) * Scraper W) :=
  match setup_driver (emit MainStarting s) with
  | (Raise e, s1) => Some (Raise e, s1)
  | (Ok _, s1) =>
      let (countries, s2) := get_countries_list s1 in
      match py_len countries with
      | Raise e => Some (Raise e, s2)
      | Ok n =>
          let s3 := emit (MainPhase 1) (emit (MainFoundCountries n) s2) in
          match scrape_all_fencers fuel (Some 2)
                  (Some (sample_countries countries)) s3 with
          | None => None
          | Some (Raise e, s4) => Some (Raise e, s4)
          | Some (Ok fencers, s4) =>
              let s5 :=
                emit (MainPhase 2)
                  (emit (MainScrapedFencers (length fencers)) s4) in
              match scrape_all_rankings (Some 10) s5 with
              | (Raise e, s6) => Some (Raise e, s6)
              | (Ok rankings, s6) =>
                  Some (Ok (sample_countries countries),
                        emit (MainScrapedRankings (length rankings)) s6)
              end
          end
      end
  end.

(** [main]: the [try] block, [except Exception] logging the error, and the
    [finally] clause. *)
Definition main (fuel : nat) (w : W)
  : option (Result (list string) * Scraper W) :=
  match main_body fuel (init w true) with
  | None => None
  | Some (Ok cs, s) => Some (Ok cs, snd (cleanup s))
  | Some (Raise e, s) => Some (Raise e, snd (cleanup (emit (MainError e) s)))
  end.

End Sweeps.

(** ** A static site

    The simplest world: the page shown never changes and every driver command
    succeeds. *)

#[export] Instance static_site : Browser Dom :=
  {| dom := fun d => d; act := fun _ d => (Ok tt, d) |}.

(** A results page with a header row and one fencer row; [links] are the
    page numbers offered. *)
Definition fencers_view (links : list (option string)) : Dom :=
  {| dom_selects := [];
     dom_page_links := links;
     dom_rows := [ [];
                   ["12345678"; "Doe"; "Jane"; "Club X"; "USA"; "1998"; "R"] ] |}.

(** A search view whose only select control has three options. *)
Definition small_select_view : Dom :=
  {| dom_selects := [ [Some ""; Some "men"; Some "women"] ];
     dom_page_links := [];
     dom_rows := [] |}.

(** A scraper whose driver is already set up. *)
Definition ready {W} (w : W) : Scraper W := with_driver true (init w true).


(** A rankings results page with a header row and the given data rows. *)
Definition rankings_view (rows : list Row) : Dom :=
  {| dom_selects := []; dom_page_links := []; dom_rows := [] :: rows |}.

Definition paris_row : Row :=
  ["1"; "Grand Prix Paris"; "Paris"; "FRA"; "Senior"; "Foil"; "7.50"].

Definition paris_entry : RankingEntry.t :=
  {| RankingEntry.rank := 1;
     RankingEntry.competition := "Grand Prix Paris";
     RankingEntry.venue := "Paris";
     RankingEntry.nation := "FRA";
     RankingEntry.category := "Senior";
     RankingEntry.discipline := "Foil";
     RankingEntry.coefficient := 15 # 2;
     RankingEntry.season := "2024";
     RankingEntry.weapon := "foil";
     RankingEntry.age_group := "cadet";
     RankingEntry.gender := "men" |}.

(** Rows whose coefficient cell has two dots. *)
Definition two_dots_row : Row :=
  ["1"; "Grand Prix Paris"; "Paris"; "FRA"; "Senior"; "Foil"; "1.2.3"].

Definition double_dot_row : Row :=
  ["3"; "Coupe du Monde"; "Budapest"; "HUN"; "Senior"; "Epee"; "7..5"].

(** A fencer row whose birth year is the single character U+00B2. *)
Definition superscript_year_row : Row :=
  ["12345678"; "Doe"; "Jane"; "Club X"; "USA";
   String (ascii_of_nat 178) EmptyString; "R"].

Definition six_cell_row : Row :=
  ["2"; "Challenge Wratislavia"; "Wroclaw"; "POL"; "U14"; "Foil"].

(** ** Vocabulary for the sweep properties *)

(** The fields of the scraper that no page fetcher changes. *)
Definition settings {W} (s : Scraper W)
  : bool * bool * list FencerProfile.t * list RankingEntry.t * FilterConfig :=
  (driver s, headless s, fencers_data s, rankings_data s, filter_config s).

(** A computation that changes neither the settings nor the history. *)
Definition keeps {W A} (m : M W A) : Prop :=
  forall s, settings (snd (m s)) = settings s
            /\ history (snd (m s)) = history s.

(** The combinations of the ranking sweep, in the order of the four nested
    loops. *)
Definition season_calls (gender weapon age_category : string)
  (todo : list string) : list Call :=
  map (RankingsCall gender weapon age_category) todo.

Definition age_category_calls (fc : FilterConfig) (gender weapon : string)
  (todo : list string) : list Call :=
  flat_map (fun a => season_calls gender weapon a (seasons fc)) todo.

Definition weapon_calls (fc : FilterConfig) (gender : string)
  (todo : list string) : list Call :=
  flat_map (fun w => age_category_calls fc gender w (age_categories fc)) todo.

Definition gender_calls (fc : FilterConfig) (todo : list string) : list Call :=
  flat_map (fun g => weapon_calls fc g (weapons fc)) todo.

Definition combinations (fc : FilterConfig) : list Call :=
  gender_calls fc (genders fc).

(** How many more fetches the ceiling allows once [count] were made; [None]
    when there is no ceiling. *)
Definition quota (limit : option Z) (count : Z) : option nat :=
  match limit with
  | Some n => if n =? 0 then None else Some (Z.to_nat (n - count))
  | None => None
  end.

Definition allowed {A} (limit : option Z) (count : Z) (l : list A) : list A :=
  match quota limit count with
  | Some k => firstn k l
  | None => l
  end.

(** What a loop of the ranking sweep does when [calls] are the combinations
    it ranges over: it changes no setting, it fetches the allowed prefix of
    [calls], and it counts each fetch. *)
Definition loop_spec {W} (limit : option Z) (calls : list Call)
  (p : Progress) (s : Scraper W) (r : Progress * Scraper W) : Prop :=
  settings (snd r) = settings s
  /\ history (snd r) = (history s ++ allowed limit (snd p) calls)%list
  /\ snd (fst r) = snd p + Z.of_nat (length (allowed limit (snd p) calls)).

(** The fetches of consecutive pages of one country, from [page] on, with
    the number of profiles each returned. *)
Fixpoint page_calls (country : string) (page : Z) (counts : list nat)
  : list Call :=
  match counts with
  | [] => []
  | n :: rest =>
      FencersPageCall page country n :: page_calls country (page + 1) rest
  end.

(** What the fencer sweep fetches for one country, starting at [first]:
    consecutive pages; every fetch but the last returned something; the
    paging ended on an empty page or because the next page is past the
    ceiling; under a ceiling [m] other than 0 no page above [m] is fetched. *)
Definition country_run_from (first : Z) (max_pages : option Z)
  (country : string) (run : list Call) : Prop :=
  exists counts : list nat,
    run = page_calls country first counts
    /\ Forall (fun n => n <> 0%nat) (removelast counts)
    /\ (last counts 1%nat = 0%nat
        \/ past_ceiling max_pages (first + Z.of_nat (length counts)) = true)
    /\ (forall m, max_pages = Some m -> m <> 0 ->
        first + Z.of_nat (length counts) - 1 <= Z.max m (first - 1)).

Definition country_run : option Z -> string -> list Call -> Prop :=
  country_run_from 1.

(** ** Vocabulary for the table properties *)

(** The profiles a table yields: one per row that parses, in table order. *)
Definition parsed_fencers (gender : string) (rows : list Row)
  : list FencerProfile.t :=
  flat_map
    (fun cells =>
       match parse_fencer_row gender cells with
       | Ok (Some fencer) => [fencer]
       | _ => []
       end)
    rows.

(** The warnings a table causes: one per row whose conversion raised. *)
Definition fencer_row_warnings (gender : string) (rows : list Row)
  : list LogEvent :=
  flat_map
    (fun cells =>
       match parse_fencer_row gender cells with
       | Raise e => [ErrorFencerRow e]
       | _ => []
       end)
    rows.

Definition parsed_rankings (gender weapon age_category season : string)
  (rows : list Row) : list RankingEntry.t :=
  flat_map
    (fun cells =>
       match parse_ranking_row gender weapon age_category season cells with
       | Ok (Some entry) => [entry]
       | _ => []
       end)
    rows.

Definition ranking_row_warnings (gender weapon age_category season : string)
  (rows : list Row) : list LogEvent :=
  flat_map
    (fun cells =>
       match parse_ranking_row gender weapon age_category season cells with
       | Raise e => [ErrorRankingRow e]
       | _ => []
       end)
    rows.

(** Number of profiles the recorded fencer page fetches returned. *)
Definition returned_total (calls : list Call) : nat :=
  fold_right
    (fun c n =>
       match c with
       | FencersPageCall _ _ returned => (returned + n)%nat
       | RankingsCall _ _ _ _ => n
       end)
    O calls.

(** The combination an entry is labelled with. *)
Definition label_of (entry : RankingEntry.t) : Call :=
  RankingsCall (RankingEntry.gender entry) (RankingEntry.weapon entry)
    (RankingEntry.age_group entry) (RankingEntry.season entry).

(** An entry labelled with one of the combinations of [fc]. *)
Definition labelled (fc : FilterConfig) (entry : RankingEntry.t) : Prop :=
  In (label_of entry) (combinations fc).

(** What country discovery leaves unchanged: everything but the world, the
    log and the country list. *)
Definition discovery_frame {W} (s s' : Scraper W) : Prop :=
  history s' = history s
  /\ driver s' = driver s
  /\ fencers_data s' = fencers_data s
  /\ rankings_data s' = rankings_data s
  /\ genders (filter_config s') = genders (filter_config s)
  /\ weapons (filter_config s') = weapons (filter_config s)
  /\ age_categories (filter_config s') = age_categories (filter_config s)
  /\ seasons (filter_config s') = seasons (filter_config s).

(** A site on which no consent button ever becomes clickable: waiting for
    one times out, every other command succeeds. *)
Record QuietSite : Type := mkQuietSite { quiet_dom : Dom }.

#[export] Instance quiet_site : Browser QuietSite :=
  {| dom := quiet_dom;
     act := fun a w =>
              match a with
              | WaitClickable _ _ => (Raise TimeoutException, w)
              | _ => (Ok tt, w)
              end |}.

(** A search view whose second select control lists 51 options. *)
Definition country_select_view : Dom :=
  {| dom_selects :=
       [ [Some ""; Some "men"; Some "women"];
         Some "" :: Some "FRA" :: Some "ITA" :: Some "GERMANY" :: None
           :: repeat (Some "HUN") 46 ];
     dom_page_links := [];
     dom_rows := [] |}.

(** A machine on which the browser cannot be started. *)
Record NoBrowser : Type := mkNoBrowser { unreachable_dom : Dom }.

#[export] Instance no_browser : Browser NoBrowser :=
  {| dom := unreachable_dom;
     act := fun a w =>
              match a with
              | Launch _ => (Raise WebDriverException, w)
              | _ => (Ok tt, w)
              end |}.


(** * Properties *)

(** ** The string primitives *)

Lemma startswith_append (p s : string) :
  PyStr.startswith p s = true -> exists r, s = (p ++ r)%string.
Proof.
  revert s. induction p as [|a p IH]; intros s E.
  - exists s. reflexivity.
  - destruct s as [|b s]; cbn [PyStr.startswith] in E; [discriminate|].
    apply andb_prop in E. destruct E as [Eab E].
    apply Ascii.eqb_eq in Eab. subst b.
    destruct (IH s E) as [r ->]. exists r. reflexivity.
Qed.

Lemma startswith_women_men (s : string) :
  PyStr.startswith "women" s = true -> PyStr.contains "men" s = true.
Proof.
  intros E. destruct (startswith_append _ _ E) as [r ->].
  vm_compute. reflexivity.
Qed.

Lemma contains_women_men (s : string) :
  PyStr.contains "women" s = true -> PyStr.contains "men" s = true.
Proof.
  induction s as [|c r IH].
  - simpl. discriminate.
  - intros E.
    change (PyStr.contains "women" (String c r))
      with (PyStr.startswith "women" (String c r) || PyStr.contains "women" r)
      in E.
    apply orb_prop in E. destruct E as [E|E].
    + apply startswith_women_men. exact E.
    + change (PyStr.contains "men" (String c r))
        with (PyStr.startswith "men" (String c r) || PyStr.contains "men" r).
      rewrite (IH E). apply orb_true_r.
Qed.

(** The branch producing ["F"] is never taken. *)
Lemma gender_marker_never_F (gender : string) : gender_marker gender <> "F".
Proof.
  unfold gender_marker.
  destruct (PyStr.contains "men" (PyStr.lower gender)) eqn:Emen.
  - discriminate.
  - destruct (PyStr.contains "women" (PyStr.lower gender)) eqn:Ewomen.
    + apply contains_women_men in Ewomen. congruence.
    + discriminate.
Qed.

(** Every filter that matches "women" is given the marker "M". *)
Lemma women_filters_give_M (gender : string) :
  PyStr.contains "women" (PyStr.lower gender) = true ->
  gender_marker gender = "M".
Proof.
  intros E. unfold gender_marker.
  rewrite (contains_women_men _ E). reflexivity.
Qed.

(** ** The row parsers *)

Lemma short_fencer_row_skipped (gender : string) (cells : Row) :
  (length cells < 7)%nat -> parse_fencer_row gender cells = Ok None.
Proof.
  intros Hlen. unfold parse_fencer_row.
  destruct (Nat.leb_spec 7 (length cells)); [lia | reflexivity].
Qed.

Lemma short_ranking_row_skipped (gender weapon age_category season : string)
  (cells : Row) :
  (length cells < 6)%nat ->
  parse_ranking_row gender weapon age_category season cells = Ok None.
Proof.
  intros Hlen. unfold parse_ranking_row.
  destruct (Nat.leb_spec 6 (length cells)); [lia | reflexivity].
Qed.

Lemma int_or_zero_raises (t : string) (e : Exn) :
  int_or_zero t = Raise e -> e = ValueError.
Proof.
  unfold int_or_zero, int_of_digits.
  destruct (PyStr.isdigit t); [|discriminate].
  destruct (negb (t =? "")%string && PyStr.forallb_str PyStr.isdecimal_char t);
    [discriminate|].
  intros E. inversion E. reflexivity.
Qed.

Lemma coefficient_of_raises (cells : Row) (e : Exn) :
  (6 < length cells)%nat -> coefficient_of cells = Raise e -> e = ValueError.
Proof.
  intros Hlen. unfold coefficient_of, cell_text.
  destruct (Nat.ltb_spec 6 (length cells)); [|lia].
  destruct (nth_error cells 6) as [c6|] eqn:E6.
  - simpl.
    destruct (PyStr.isdigit (PyStr.remove_char "." (PyStr.strip c6)));
      [|discriminate].
    unfold float_of_decimal.
    match goal with |- (if ?b then _ else _) = _ -> _ => destruct b end;
      [discriminate|].
    intros E. inversion E. reflexivity.
  - apply nth_error_None in E6. lia.
Qed.

Lemma cell_text_ok (cells : Row) (i : nat) :
  (i < length cells)%nat -> exists t, cell_text cells i = Ok t.
Proof.
  intros Hi. unfold cell_text.
  destruct (nth_error cells i) as [t|] eqn:E.
  - exists t. reflexivity.
  - apply nth_error_None in E. lia.
Qed.

Ltac read_cell cells i :=
  let t := fresh "c" in
  let E := fresh "E" in
  destruct (cell_text_ok cells i) as [t E]; [lia|];
  rewrite E; cbn [rbind].

(** A fencer row that meets the minimum yields a record unless the birth
    year conversion raises ValueError. *)
Lemma long_fencer_row_outcome (gender : string) (cells : Row) :
  (7 <= length cells)%nat ->
  (exists fencer, parse_fencer_row gender cells = Ok (Some fencer))
  \/ parse_fencer_row gender cells = Raise ValueError.
Proof.
  intros Hlen. unfold parse_fencer_row.
  destruct (Nat.leb_spec 7 (length cells)); [|lia].
  destruct (Nat.ltb_spec 6 (length cells)); [|lia].
  read_cell cells 0%nat. read_cell cells 1%nat. read_cell cells 2%nat.
  read_cell cells 3%nat. read_cell cells 4%nat. read_cell cells 5%nat.
  destruct (int_or_zero (PyStr.strip c4)) as [year|e] eqn:Eyear; cbn [rbind].
  - read_cell cells 6%nat. left. eexists. reflexivity.
  - right. rewrite (int_or_zero_raises _ _ Eyear). reflexivity.
Qed.

(** A ranking row that meets the minimum yields a record unless the rank
    or the coefficient conversion raises ValueError. *)
Lemma long_ranking_row_outcome (gender weapon age_category season : string)
  (cells : Row) :
  (6 <= length cells)%nat ->
  (exists entry,
      parse_ranking_row gender weapon age_category season cells
      = Ok (Some entry))
  \/ parse_ranking_row gender weapon age_category season cells
     = Raise ValueError.
Proof.
  intros Hlen. unfold parse_ranking_row.
  destruct (Nat.leb_spec 6 (length cells)); [|lia].
  read_cell cells 0%nat.
  destruct (int_or_zero (PyStr.strip c)) as [rk|e] eqn:Erank; cbn [rbind].
  - read_cell cells 1%nat. read_cell cells 2%nat. read_cell cells 3%nat.
    read_cell cells 4%nat. read_cell cells 5%nat.
    destruct (coefficient_of cells) as [coef|e] eqn:Ecoef; cbn [rbind].
    + left. eexists. reflexivity.
    + right. f_equal. apply (coefficient_of_raises cells e); [|exact Ecoef].
      unfold coefficient_of in Ecoef.
      destruct (Nat.ltb_spec 6 (length cells)); [assumption|discriminate].
  - right. rewrite (int_or_zero_raises _ _ Erank). reflexivity.
Qed.

(** A non-numeric cell whose text is not made of digit characters is
    replaced by zero. *)
Lemma int_or_zero_not_digits (t : string) :
  PyStr.isdigit t = false -> int_or_zero t = Ok 0.
Proof. unfold int_or_zero. intros ->. reflexivity. Qed.

(** ** The row loops do not depend on the scraper's state *)

Section RowLoops.

Context {W : Type} `{Browser W}.

Lemma fencer_rows_loop_state (gender : string) (rows : list Row) :
  forall (acc : list FencerProfile.t) (s s' : Scraper W),
    fst (fencer_rows_loop gender rows acc s)
    = fst (fencer_rows_loop gender rows acc s').
Proof.
  induction rows as [|cells rest IH]; intros acc s s'.
  - reflexivity.
  - simpl. destruct (parse_fencer_row gender cells) as [[f|]|e].
    + apply IH.
    + apply IH.
    + destruct (is_value_or_index_error e).
      * unfold bind, log_event. apply IH.
      * reflexivity.
Qed.

Lemma ranking_rows_loop_state (gender weapon age_category season : string)
  (rows : list Row) :
  forall (acc : list RankingEntry.t) (s s' : Scraper W),
    fst (ranking_rows_loop gender weapon age_category season rows acc s)
    = fst (ranking_rows_loop gender weapon age_category season rows acc s').
Proof.
  induction rows as [|cells rest IH]; intros acc s s'.
  - reflexivity.
  - simpl.
    destruct (parse_ranking_row gender weapon age_category season cells)
      as [[r|]|e].
    + apply IH.
    + apply IH.
    + destruct (is_value_or_index_error e).
      * unfold bind, log_event. apply IH.
      * reflexivity.
Qed.

End RowLoops.

(** ** Scenarios and row-level claims *)

(** C8: with filters gender "men", weapon "foil", age category "cadet" and
    season "2024", the row 1 / Grand Prix Paris / Paris / FRA / Senior /
    Foil / 7.50 parses to exactly the entry with rank 1, those five texts,
    coefficient 7.50 (the rational 15/2) and the four filter values. *)
Theorem paris_row_parses :
  parse_ranking_row "men" "foil" "cadet" "2024" paris_row = Ok (Some paris_entry)
  /\ (RankingEntry.coefficient paris_entry == 7.50)%Q.
Proof. split; reflexivity. Qed.

(** C10: a ranking row with exactly six cells that is accepted gets the
    coefficient 0.0, whatever its cells hold. *)
Theorem six_cell_row_coefficient_zero
  (gender weapon age_category season : string) (cells : Row)
  (entry : RankingEntry.t) :
  length cells = 6%nat ->
  parse_ranking_row gender weapon age_category season cells = Ok (Some entry) ->
  RankingEntry.coefficient entry = 0%Q.
Proof.
  intros Hlen Hparse. unfold parse_ranking_row in Hparse.
  rewrite Hlen in Hparse. cbn [Nat.leb] in Hparse.
  assert (Hcoef : coefficient_of cells = Ok 0%Q).
  { unfold coefficient_of. rewrite Hlen. reflexivity. }
  rewrite Hcoef in Hparse.
  destruct (cell_text cells 0) as [c0|]; [|discriminate].
  cbn [rbind] in Hparse.
  destruct (int_or_zero (PyStr.strip c0)) as [rk|]; [|discriminate].
  cbn [rbind] in Hparse.
  repeat match type of Hparse with
         | context [cell_text cells ?i] =>
             destruct (cell_text cells i); cbn [rbind] in Hparse;
             [|discriminate]
         end.
  inversion Hparse. reflexivity.
Qed.

Lemma six_cell_row_coefficient_zero_witness :
  exists entry,
    parse_ranking_row "women" "foil" "u14" "2023" six_cell_row = Ok (Some entry)
    /\ RankingEntry.coefficient entry = 0%Q.
Proof.
  eexists. split.
  - reflexivity.
  - apply (six_cell_row_coefficient_zero "women" "foil" "u14" "2023"
             six_cell_row); reflexivity.
Defined.

(** C1, at the failing input: with the gender filter "women" the fencer
    page fetch labels the fencer it parses "M"; the test for "men" comes
    first and "women" contains "men". *)
Theorem women_filter_gives_M :
  gender_marker "women" = "M"
  /\ map FencerProfile.gender
       (fst (scrape_fencers_page 1 "" "" "" "women" (ready (fencers_view []))))
     = ["M"].
Proof. split; reflexivity. Qed.

(** C2, at the failing input: a ranking row whose coefficient cell is
    "1.2.3" passes the digit test, the conversion raises ValueError and the
    fetch returns no record for the row. *)
Theorem two_dots_coefficient_skips_row :
  parse_ranking_row "men" "foil" "cadet" "2024" two_dots_row = Raise ValueError
  /\ fst (scrape_rankings "men" "foil" "cadet" "2024" ""
            (ready (rankings_view [two_dots_row]))) = []
  /\ log (snd (scrape_rankings "men" "foil" "cadet" "2024" ""
                 (ready (rankings_view [two_dots_row]))))
     = [ErrorRankingRow ValueError;
        ScrapedRankings 0 "men" "foil" "cadet" "2024"].
Proof. repeat split; reflexivity. Qed.

(** The same happens to a fencer row whose birth year is a superscript
    digit. *)
Remark superscript_year_skips_row :
  parse_fencer_row "" superscript_year_row = Raise ValueError.
Proof. reflexivity. Qed.

(** C4, at the failing input: a ranking row of seven cells, above the
    minimum of six, is skipped by the row loop. *)
Theorem long_row_skipped {W : Type} `{Browser W} (s : Scraper W) :
  (6 <= length double_dot_row)%nat
  /\ ranking_rows_loop "men" "epee" "cadet" "2024" [double_dot_row] [] s
     = (Ok [], with_log (log s ++ [ErrorRankingRow ValueError]) s).
Proof. split; [simpl; lia | reflexivity]. Qed.

(** C9: running a row loop again, from the state the first run left, gives
    the same records; the records depend on the rows and the filter values
    only, not on the state of the scraper. *)
Theorem row_loops_replay {W : Type} `{Browser W}
  (gender weapon age_category season : string) (rows : list Row)
  (s s' : Scraper W) :
  fst (fencer_rows_loop gender rows []
         (snd (fencer_rows_loop gender rows [] s)))
  = fst (fencer_rows_loop gender rows [] s)
  /\ fst (ranking_rows_loop gender weapon age_category season rows []
            (snd (ranking_rows_loop gender weapon age_category season rows [] s)))
     = fst (ranking_rows_loop gender weapon age_category season rows [] s)
  /\ fst (fencer_rows_loop gender rows [] s)
     = fst (fencer_rows_loop gender rows [] s')
  /\ fst (ranking_rows_loop gender weapon age_category season rows [] s)
     = fst (ranking_rows_loop gender weapon age_category season rows [] s').
Proof.
  repeat split.
  - apply fencer_rows_loop_state.
  - apply ranking_rows_loop_state.
  - apply fencer_rows_loop_state.
  - apply ranking_rows_loop_state.
Qed.

(** C5, at the failing input: on a search view whose only select has three
    options, [get_countries_list] returns [None]; [main] then raises
    TypeError at [len(countries)], logs the error and fetches no page. *)
Theorem small_select_returns_none :
  fst (get_countries_list (ready small_select_view)) = None
  /\ exists s,
       main 3 small_select_view = Some (Raise TypeError, s)
       /\ history s = []
       /\ In (MainError TypeError) (log s).
Proof.
  split; [reflexivity|].
  eexists. split; [reflexivity|]. split; [reflexivity|].
  simpl. auto.
Qed.

(** ** Pagination exhaustion *)

(** C7: for a page number above 1, when the results view reached by the
    search offers no link whose data-page attribute matches the page (the
    lookup of the source: the attribute contains the page number), the fetch
    returns the empty list; nothing is raised. *)
Theorem missing_page_link_gives_empty {W : Type} `{Browser W}
  (page : Z) (country first_name last_name gender : string) (s : Scraper W) :
  1 < page ->
  (forall s',
      submit_fencer_search country first_name last_name gender s = (Ok tt, s') ->
      has_page_link (dom (world s')) page = false) ->
  fst (scrape_fencers_page page country first_name last_name gender s) = [].
Proof.
  intros Hpage Hlink.
  unfold scrape_fencers_page, try_except_all.
  unfold bind at 1.
  destruct (submit_fencer_search country first_name last_name gender s)
    as [[[]|e] s1] eqn:Esubmit.
  - specialize (Hlink s1 eq_refl).
    unfold bind at 1. unfold goto_page.
    destruct (Z.ltb_spec 1 page) as [_|Hle]; [|lia].
    unfold try_except, find_page_link, current_dom.
    unfold bind at 1. unfold bind at 1.
    destruct (driver s1).
    + rewrite Hlink. reflexivity.
    + reflexivity.
  - reflexivity.
Qed.

Lemma missing_page_link_gives_empty_witness :
  fst (scrape_fencers_page 2 "FRA" "" "" "" (ready (fencers_view []))) = [].
Proof.
  apply (missing_page_link_gives_empty 2 "FRA" "" "" "" (ready (fencers_view []))).
  - lia.
  - intros s' E. vm_compute in E. inversion E. reflexivity.
Defined.

(** ** What the page fetchers leave unchanged *)

Section Frames.

Context {W : Type} `{Browser W}.

Lemma keeps_ret {A} (a : A) : keeps (W := W) (ret a).
Proof. intros s. split; reflexivity. Qed.

Lemma keeps_raise {A} (e : Exn) : keeps (W := W) (A := A) (raise e).
Proof. intros s. split; reflexivity. Qed.

Lemma keeps_bind {A B} (m : M W A) (k : A -> M W B) :
  keeps m -> (forall a, keeps (k a)) -> keeps (bind m k).
Proof.
  intros Hm Hk s. unfold bind.
  destruct (Hm s) as [Hs Hh].
  destruct (m s) as [[a|e] s1]; simpl in *.
  - destruct (Hk a s1) as [Hs' Hh']. split; congruence.
  - split; assumption.
Qed.

Lemma keeps_try_except {A} (m : M W A) (classes : Exn -> bool)
  (h : Exn -> M W A) :
  keeps m -> (forall e, keeps (h e)) -> keeps (try_except m classes h).
Proof.
  intros Hm Hh s. unfold try_except.
  destruct (Hm s) as [Hs Hhist].
  destruct (m s) as [[a|e] s1]; simpl in *.
  - split; assumption.
  - destruct (classes e); simpl.
    + destruct (Hh e s1) as [Hs' Hh']. split; congruence.
    + split; assumption.
Qed.

Lemma keeps_when (b : bool) (m : M W unit) : keeps m -> keeps (when b m).
Proof. intros Hm. destruct b; [exact Hm | apply keeps_ret]. Qed.

Lemma keeps_log_event (e : LogEvent) : keeps (W := W) (log_event e).
Proof. intros s. split; reflexivity. Qed.

Lemma keeps_drive (a : Action) : keeps (W := W) (drive a).
Proof.
  intros s. unfold drive. destruct (driver s) eqn:Ed.
  - destruct (act a (world s)) as [r w]. split; reflexivity.
  - split; reflexivity.
Qed.

Lemma keeps_current_dom : keeps (W := W) current_dom.
Proof.
  intros s. unfold current_dom. destruct (driver s); split; reflexivity.
Qed.

Lemma keeps_sleep (n : nat) : keeps (W := W) (sleep n).
Proof. intros s. split; reflexivity. Qed.

Lemma keeps_fencer_rows_loop (gender : string) (rows : list Row) :
  forall acc, keeps (W := W) (fencer_rows_loop gender rows acc).
Proof.
  induction rows as [|cells rest IH]; intros acc.
  - apply keeps_ret.
  - simpl. destruct (parse_fencer_row gender cells) as [[f|]|e].
    + apply IH.
    + apply IH.
    + destruct (is_value_or_index_error e).
      * apply keeps_bind; [apply keeps_log_event | intros _; apply IH].
      * apply keeps_raise.
Qed.

Lemma keeps_ranking_rows_loop (gender weapon age_category season : string)
  (rows : list Row) :
  forall acc,
    keeps (W := W)
      (ranking_rows_loop gender weapon age_category season rows acc).
Proof.
  induction rows as [|cells rest IH]; intros acc.
  - apply keeps_ret.
  - simpl.
    destruct (parse_ranking_row gender weapon age_category season cells)
      as [[r|]|e].
    + apply IH.
    + apply IH.
    + destruct (is_value_or_index_error e).
      * apply keeps_bind; [apply keeps_log_event | intros _; apply IH].
      * apply keeps_raise.
Qed.

Create HintDb keeps.

#[local] Hint Resolve keeps_ret keeps_raise keeps_bind keeps_try_except
  keeps_when keeps_log_event keeps_drive keeps_current_dom keeps_sleep
  keeps_fencer_rows_loop keeps_ranking_rows_loop : keeps.

Lemma keeps_submit_fencer_search (country first_name last_name gender : string) :
  keeps (W := W) (submit_fencer_search country first_name last_name gender).
Proof. unfold submit_fencer_search. auto 20 with keeps. Qed.

Lemma keeps_goto_page (page : Z) : keeps (W := W) (goto_page page).
Proof.
  unfold goto_page, find_page_link. destruct (1 <? page).
  - apply keeps_try_except; [|auto with keeps].
    apply keeps_bind.
    + apply keeps_bind; [auto with keeps|].
      intros d. destruct (has_page_link d page); auto with keeps.
    + auto 10 with keeps.
  - auto with keeps.
Qed.

Lemma keeps_extract_fencers (page : Z) (gender : string) :
  keeps (W := W) (extract_fencers page gender).
Proof. unfold extract_fencers. auto 20 with keeps. Qed.

Lemma scrape_fencers_page_frame (page : Z)
  (country first_name last_name gender : string) (s : Scraper W) :
  settings (snd (scrape_fencers_page page country first_name last_name gender s))
  = settings s
  /\ history (snd (scrape_fencers_page page country first_name last_name gender s))
     = (history s
        ++ [FencersPageCall page country
              (length (fst (scrape_fencers_page page country first_name
                              last_name gender s)))])%list.
Proof.
  destruct (scrape_fencers_page page country first_name last_name gender s)
    as [fencers s'] eqn:E.
  unfold scrape_fencers_page, try_except_all in E.
  match type of E with
  | context [match ?m s with _ => _ end] => assert (Hk : keeps m)
  end.
  { apply keeps_bind; [apply keeps_submit_fencer_search|]. intros _.
    apply keeps_bind; [apply keeps_goto_page|]. intros b.
    destruct b; [apply keeps_extract_fencers | apply keeps_ret]. }
  destruct (Hk s) as [Hs Hh].
  match type of E with
  | context [match ?m s with _ => _ end] => destruct (m s) as [[a|e] s1]
  end; simpl in *; inversion E; subst; simpl; rewrite Hh; split;
    solve [exact Hs | reflexivity].
Qed.

Lemma scrape_rankings_frame (gender weapon age_category season country : string)
  (s : Scraper W) :
  settings (snd (scrape_rankings gender weapon age_category season country s))
  = settings s
  /\ history (snd (scrape_rankings gender weapon age_category season country s))
     = (history s ++ [RankingsCall gender weapon age_category season])%list.
Proof.
  destruct (scrape_rankings gender weapon age_category season country s)
    as [rankings s'] eqn:E.
  unfold scrape_rankings, try_except_all in E.
  unfold bind at 1 in E. cbn [note_call] in E.
  set (s0 := with_history
               (history s ++ [RankingsCall gender weapon age_category season]) s)
    in E.
  match type of E with
  | context [match ?m s0 with _ => _ end] => assert (Hk : keeps m)
  end.
  { apply keeps_bind; [apply keeps_drive|]. intros _.
    apply keeps_bind; [apply keeps_current_dom|]. intros d.
    apply keeps_bind; [auto 30 with keeps|]. intros _.
    auto 30 with keeps. }
  destruct (Hk s0) as [Hs Hh].
  match type of E with
  | context [match ?m s0 with _ => _ end] => destruct (m s0) as [[a|e] s1]
  end; simpl in *; inversion E; subst; simpl; split;
    solve [exact Hs | exact Hh].
Qed.

End Frames.

(** ** The ranking sweep *)

Local Open Scope list_scope.

Lemma allowed_nil {A} (limit : option Z) (c : Z) :
  allowed limit c (@nil A) = [].
Proof.
  unfold allowed. destruct (quota limit c) as [k|]; [|reflexivity].
  apply firstn_nil.
Qed.

Lemma allowed_reached {A} (limit : option Z) (c : Z) (l : list A) :
  limit_reached limit c = true -> allowed limit c l = [].
Proof.
  unfold limit_reached, allowed, quota, truthy_int.
  destruct limit as [n|]; [|discriminate].
  destruct (n =? 0); [discriminate|]. simpl.
  intros E. apply Z.leb_le in E.
  replace (Z.to_nat (n - c)) with 0%nat by lia. reflexivity.
Qed.

Lemma allowed_cons {A} (limit : option Z) (c : Z) (x : A) (l : list A) :
  limit_reached limit c = false ->
  allowed limit c (x :: l) = x :: allowed limit (c + 1) l.
Proof.
  unfold limit_reached, allowed, quota, truthy_int.
  destruct limit as [n|]; [|reflexivity].
  destruct (n =? 0); [reflexivity|]. simpl.
  intros E. apply Z.leb_gt in E.
  replace (Z.to_nat (n - c)) with (S (Z.to_nat (n - (c + 1)))) by lia.
  reflexivity.
Qed.

Lemma allowed_app_stop {A} (limit : option Z) (c : Z) (l1 l2 : list A) :
  limit_reached limit (c + Z.of_nat (length (allowed limit c l1))) = true ->
  allowed limit c (l1 ++ l2) = allowed limit c l1.
Proof.
  unfold limit_reached, allowed, quota, truthy_int.
  destruct limit as [n|]; [|discriminate].
  destruct (n =? 0); [discriminate|]. simpl.
  intros E. apply Z.leb_le in E. rewrite length_firstn in E.
  rewrite firstn_app.
  replace (Z.to_nat (n - c) - length l1)%nat with 0%nat by lia.
  rewrite firstn_O. apply app_nil_r.
Qed.

Lemma allowed_app_continue {A} (limit : option Z) (c : Z) (l1 l2 : list A) :
  limit_reached limit (c + Z.of_nat (length (allowed limit c l1))) = false ->
  allowed limit c (l1 ++ l2)
  = allowed limit c l1
    ++ allowed limit (c + Z.of_nat (length (allowed limit c l1))) l2.
Proof.
  unfold limit_reached, allowed, quota, truthy_int.
  destruct limit as [n|]; [|reflexivity].
  destruct (n =? 0); [reflexivity|]. simpl.
  intros E. apply Z.leb_gt in E. rewrite length_firstn in *.
  rewrite firstn_app. f_equal. f_equal. lia.
Qed.

Section RankingSweep.

Context {W : Type} `{Browser W}.

Lemma loop_spec_done (limit : option Z) (p : Progress) (s : Scraper W) :
  loop_spec limit [] p s (p, s).
Proof.
  unfold loop_spec. rewrite allowed_nil. simpl.
  rewrite app_nil_r. repeat split. lia.
Qed.

Lemma loop_spec_seq (limit : option Z) (calls1 calls2 : list Call)
  (p : Progress) (s : Scraper W) (r1 r2 : Progress * Scraper W) :
  loop_spec limit calls1 p s r1 ->
  (limit_reached limit (snd (fst r1)) = true -> r2 = r1) ->
  (limit_reached limit (snd (fst r1)) = false ->
   loop_spec limit calls2 (fst r1) (snd r1) r2) ->
  loop_spec limit (calls1 ++ calls2) p s r2.
Proof.
  intros (Hs1 & Hh1 & Hc1) Hstop Hmore.
  destruct (limit_reached limit (snd (fst r1))) eqn:E.
  - rewrite (Hstop eq_refl). rewrite Hc1 in E.
    unfold loop_spec. rewrite (allowed_app_stop _ _ _ _ E). auto.
  - destruct (Hmore eq_refl) as (Hs2 & Hh2 & Hc2). rewrite Hc1 in E.
    unfold loop_spec. rewrite (allowed_app_continue _ _ _ _ E).
    rewrite Hc1 in Hh2, Hc2.
    repeat split.
    + congruence.
    + rewrite Hh2, Hh1. symmetry. apply app_assoc.
    + rewrite Hc2, length_app. lia.
Qed.

Lemma seasons_loop_spec (limit : option Z) (gender weapon age_category : string)
  (todo : list string) :
  forall (p : Progress) (s : Scraper W),
    loop_spec limit (season_calls gender weapon age_category todo) p s
      (seasons_loop limit gender weapon age_category todo p s).
Proof.
  induction todo as [|season rest IH]; intros p s.
  - apply loop_spec_done.
  - cbn [seasons_loop season_calls map].
    destruct (limit_reached limit (snd p)) eqn:E.
    + unfold loop_spec. rewrite (allowed_reached _ _ _ E). simpl.
      rewrite app_nil_r. repeat split. lia.
    + pose proof
        (scrape_rankings_frame gender weapon age_category season ""
           (emit (ScrapingCombination gender weapon age_category season) s))
        as [Hs Hh].
      destruct (scrape_rankings gender weapon age_category season ""
                  (emit (ScrapingCombination gender weapon age_category season) s))
        as [rankings s1].
      cbn [snd] in Hs, Hh.
      destruct (IH ((fst p ++ rankings)%list, snd p + 1) (pause 3 s1))
        as (Hs' & Hh' & Hc').
      cbn [snd fst] in Hs', Hh', Hc'.
      unfold loop_spec. rewrite (allowed_cons _ _ _ _ E).
      fold (season_calls gender weapon age_category rest).
      repeat split.
      * rewrite Hs'. exact Hs.
      * rewrite Hh'. change (history (pause 3 s1)) with (history s1).
        rewrite Hh. cbn [emit log_event snd with_log history].
        rewrite <- app_assoc. reflexivity.
      * rewrite Hc'. cbn [length]. lia.
Qed.

Lemma settings_filter_config (s s' : Scraper W) :
  settings s' = settings s -> filter_config s' = filter_config s.
Proof. unfold settings. intros E. inversion E. reflexivity. Qed.

Lemma age_categories_loop_spec (limit : option Z) (gender weapon : string)
  (todo : list string) :
  forall (p : Progress) (s : Scraper W),
    loop_spec limit
      (age_category_calls (filter_config s) gender weapon todo) p s
      (age_categories_loop limit gender weapon todo p s).
Proof.
  induction todo as [|age_category rest IH]; intros p s.
  - apply loop_spec_done.
  - cbn [age_categories_loop age_category_calls flat_map].
    pose proof (seasons_loop_spec limit gender weapon age_category
                  (seasons (filter_config s)) p s) as Hinner.
    destruct (seasons_loop limit gender weapon age_category
                (seasons (filter_config s)) p s) as [p1 s1].
    apply (loop_spec_seq _ _ _ _ _ (p1, s1)); [exact Hinner| |];
      cbn [fst snd]; intros E; rewrite E; [reflexivity|].
    destruct Hinner as (Hs & _).
    rewrite <- (settings_filter_config _ _ Hs). apply IH.
Qed.

Lemma weapons_loop_spec (limit : option Z) (gender : string)
  (todo : list string) :
  forall (p : Progress) (s : Scraper W),
    loop_spec limit (weapon_calls (filter_config s) gender todo) p s
      (weapons_loop limit gender todo p s).
Proof.
  induction todo as [|weapon rest IH]; intros p s.
  - apply loop_spec_done.
  - cbn [weapons_loop weapon_calls flat_map].
    pose proof (age_categories_loop_spec limit gender weapon
                  (age_categories (filter_config s)) p s) as Hinner.
    destruct (age_categories_loop limit gender weapon
                (age_categories (filter_config s)) p s) as [p1 s1].
    apply (loop_spec_seq _ _ _ _ _ (p1, s1)); [exact Hinner| |];
      cbn [fst snd]; intros E; rewrite E; [reflexivity|].
    destruct Hinner as (Hs & _).
    rewrite <- (settings_filter_config _ _ Hs). apply IH.
Qed.

Lemma genders_loop_spec (limit : option Z) (todo : list string) :
  forall (p : Progress) (s : Scraper W),
    loop_spec limit (gender_calls (filter_config s) todo) p s
      (genders_loop limit todo p s).
Proof.
  induction todo as [|gender rest IH]; intros p s.
  - apply loop_spec_done.
  - cbn [genders_loop gender_calls flat_map].
    pose proof (weapons_loop_spec limit gender
                  (weapons (filter_config s)) p s) as Hinner.
    destruct (weapons_loop limit gender (weapons (filter_config s)) p s)
      as [p1 s1].
    apply (loop_spec_seq _ _ _ _ _ (p1, s1)); [exact Hinner| |];
      cbn [fst snd]; intros E; rewrite E; [reflexivity|].
    destruct Hinner as (Hs & _).
    rewrite <- (settings_filter_config _ _ Hs). apply IH.
Qed.

Lemma ensure_driver_frame (s : Scraper W) :
  filter_config (snd (ensure_driver s)) = filter_config s
  /\ history (snd (ensure_driver s)) = history s.
Proof.
  unfold ensure_driver, setup_driver. destruct (driver s); [auto|].
  destruct (act (Launch (headless s)) (world s)) as [[[]|e] w]; auto.
Qed.

Lemma scrape_all_rankings_history (limit : option Z) (s : Scraper W) :
  fst (ensure_driver s) = Ok tt ->
  history (snd (scrape_all_rankings limit s))
  = history s ++ allowed limit 0 (combinations (filter_config s)).
Proof.
  intros Hdrv. unfold scrape_all_rankings.
  destruct (ensure_driver_frame s) as [Hfc Hh].
  destruct (ensure_driver s) as [[[]|e] s1]; [|discriminate].
  cbn [snd] in Hfc, Hh.
  pose proof (genders_loop_spec limit (genders (filter_config s1)) ([], 0) s1)
    as (_ & Hhist & _).
  destruct (genders_loop limit (genders (filter_config s1)) ([], 0) s1)
    as [p s2].
  cbn [snd fst with_rankings_data history] in *.
  rewrite Hhist, Hh, Hfc. reflexivity.
Qed.

Lemma length_combinations (fc : FilterConfig) :
  length (combinations fc)
  = (length (genders fc) * (length (weapons fc)
     * (length (age_categories fc) * length (seasons fc))))%nat.
Proof.
  assert (Hflat : forall (f : string -> list Call) (k : nat) (l : list string),
             (forall x, length (f x) = k) ->
             length (flat_map f l) = (length l * k)%nat).
  { intros f k l Hf. induction l as [|x l IH]; [reflexivity|].
    simpl. rewrite length_app, Hf, IH. reflexivity. }
  unfold combinations, gender_calls.
  apply Hflat. intros g. unfold weapon_calls.
  apply Hflat. intros w. unfold age_category_calls.
  apply Hflat. intros a. unfold season_calls. apply length_map.
Qed.

(** C3, amended: once the session is open, a ceiling N of at least 1 makes
    the ranking sweep fetch the first N combinations of the four nested
    loops, in their order, and all of them when there are fewer than N: the
    fetch is invoked min(N, number of combinations) times, wherever in the
    nesting the ceiling is reached.  Without a ceiling, or with the ceiling
    0, every combination is fetched. *)
Theorem ranking_sweep_fetches (limit : option Z) (s : Scraper W) :
  fst (ensure_driver s) = Ok tt ->
  (forall n, limit = Some n -> 1 <= n ->
     history (snd (scrape_all_rankings limit s))
     = history s ++ firstn (Z.to_nat n) (combinations (filter_config s))
     /\ length (firstn (Z.to_nat n) (combinations (filter_config s)))
        = Nat.min (Z.to_nat n) (length (combinations (filter_config s))))
  /\ (limit = None \/ limit = Some 0 ->
      history (snd (scrape_all_rankings limit s))
      = history s ++ combinations (filter_config s)).
Proof.
  intros Hdrv. rewrite (scrape_all_rankings_history limit s Hdrv). split.
  - intros n -> Hn. split; [|apply length_firstn].
    unfold allowed, quota.
    destruct (Z.eqb_spec n 0) as [E|_]; [lia|].
    rewrite Z.sub_0_r. reflexivity.
  - intros [-> | ->]; reflexivity.
Qed.

End RankingSweep.

Lemma ranking_sweep_fetches_witness :
  fst (ensure_driver (ready (rankings_view [paris_row]))) = Ok tt
  /\ history (snd (scrape_all_rankings (Some 10)
                     (ready (rankings_view [paris_row]))))
     = history (ready (rankings_view [paris_row]))
       ++ firstn (Z.to_nat 10)
            (combinations (filter_config (ready (rankings_view [paris_row])))).
Proof.
  split; [reflexivity|].
  apply (ranking_sweep_fetches (Some 10) (ready (rankings_view [paris_row]))
           eq_refl).
  - reflexivity.
  - lia.
Defined.

(** With the ceiling 200 the sweep over the 144 configured combinations
    invokes the fetch 144 times, not 200 times. *)
Lemma ceiling_200_fetches_144 :
  length (history (snd (scrape_all_rankings (Some 200)
                          (ready (rankings_view [paris_row])))))
  = 144%nat
  /\ length (history (snd (scrape_all_rankings (Some 200)
                             (ready (rankings_view [paris_row])))))
     <> Z.to_nat 200.
Proof.
  assert (E : length (history (snd (scrape_all_rankings (Some 200)
                                      (ready (rankings_view [paris_row])))))
              = 144%nat) by (vm_compute; reflexivity).
  split; [exact E|]. rewrite E. lia.
Qed.

(** With the ceiling 0 the sweep fetches every combination. *)
Remark ceiling_0_fetches_all :
  length (history (snd (scrape_all_rankings (Some 0)
                          (ready (rankings_view [paris_row])))))
  = 144%nat.
Proof. vm_compute. reflexivity. Qed.

(** ** The fencer sweep *)

Section FencerSweep.

Context {W : Type} `{Browser W}.

Lemma not_past_ceiling (max_pages : option Z) (page m : Z) :
  past_ceiling max_pages page = false ->
  max_pages = Some m -> m <> 0 -> page <= m.
Proof.
  unfold past_ceiling, truthy_int. intros E -> Hm.
  destruct (Z.eqb_spec m 0) as [|_]; [contradiction|].
  simpl in E. apply Z.ltb_ge in E. exact E.
Qed.

Lemma pages_loop_run (max_pages : option Z) (country : string) (fuel : nat) :
  forall (page : Z) (all : list FencerProfile.t) (s : Scraper W)
         (all' : list FencerProfile.t) (s' : Scraper W),
    pages_loop fuel max_pages country page all s = Some (all', s') ->
    settings s' = settings s
    /\ exists run,
         history s' = history s ++ run
         /\ country_run_from page max_pages country run.
Proof.
  induction fuel as [|fuel IH]; intros page all s all' s' E.
  - discriminate.
  - cbn [pages_loop] in E.
    destruct (past_ceiling max_pages page) eqn:Eceil.
    + inversion E; subst. split; [reflexivity|].
      exists []. split; [symmetry; apply app_nil_r|].
      exists []. cbn [page_calls removelast length Z.of_nat].
      rewrite Z.add_0_r. repeat split; auto. intros. lia.
    + pose proof (scrape_fencers_page_frame page country "" "" "" s)
        as [Hs Hh].
      destruct (scrape_fencers_page page country "" "" "" s)
        as [fencers s1].
      cbn [fst snd] in Hs, Hh.
      destruct fencers as [|f fs].
      * inversion E; subst. split; [exact Hs|].
        eexists. split; [exact Hh|].
        exists [0%nat]. cbn [page_calls removelast last length].
        repeat split; auto.
        intros m Hm Hm0.
        pose proof (not_past_ceiling _ _ _ Eceil Hm Hm0). lia.
      * apply IH in E. destruct E as (Hs' & run & Hh' & counts & Hrun & Hall & Hend & Hmax).
        split; [rewrite Hs'; exact Hs|].
        exists (FencersPageCall page country (length (f :: fs)) :: run).
        split.
        { rewrite Hh'. change (history (pause 2 s1)) with (history s1).
          rewrite Hh, <- app_assoc. reflexivity. }
        exists (length (f :: fs) :: counts).
        split; [cbn [page_calls]; rewrite Hrun; reflexivity|].
        replace (page + Z.of_nat (length (length (f :: fs) :: counts)))
          with (page + 1 + Z.of_nat (length counts))
          by (cbn [length]; lia).
        split; [|split].
        { destruct counts as [|c cs]; [constructor|].
          change (removelast (length (f :: fs) :: c :: cs))
            with (length (f :: fs) :: removelast (c :: cs)).
          constructor; [discriminate | exact Hall]. }
        { destruct counts as [|c cs].
          - destruct Hend as [Hend|Hend]; [discriminate|right; exact Hend].
          - exact Hend. }
        { intros m Hm Hm0. specialize (Hmax m Hm Hm0).
          pose proof (not_past_ceiling _ _ _ Eceil Hm Hm0). lia. }
Qed.

Lemma pages_loop_terminates (max_pages : option Z) (country : string)
  (m : Z) :
  max_pages = Some m -> m <> 0 ->
  forall (fuel : nat) (page : Z) (all : list FencerProfile.t) (s : Scraper W),
    (Z.to_nat (m - page + 1) < fuel)%nat ->
    pages_loop fuel max_pages country page all s <> None.
Proof.
  intros Hm Hm0. induction fuel as [|fuel IH]; intros page all s Hfuel.
  - lia.
  - cbn [pages_loop].
    destruct (past_ceiling max_pages page) eqn:Eceil; [discriminate|].
    pose proof (not_past_ceiling _ _ _ Eceil Hm Hm0) as Hle.
    destruct (scrape_fencers_page page country "" "" "" s) as [fencers s1].
    destruct fencers as [|f fs]; [discriminate|].
    apply IH. lia.
Qed.

Lemma countries_sweep_runs (fuel : nat) (max_pages : option Z)
  (todo : list string) :
  forall (all : list FencerProfile.t) (s : Scraper W)
         (all' : list FencerProfile.t) (s' : Scraper W),
    countries_sweep fuel max_pages todo all s = Some (all', s') ->
    exists runs,
      history s' = history s ++ concat runs
      /\ Forall2 (country_run max_pages) todo runs.
Proof.
  induction todo as [|country rest IH]; intros all s all' s' E.
  - inversion E; subst. exists []. split; [symmetry; apply app_nil_r|].
    constructor.
  - cbn [countries_sweep] in E.
    destruct (pages_loop fuel max_pages country 1 all
                (emit (ScrapingCountry country) s))
      as [[all1 s1]|] eqn:Eloop; [|discriminate].
    apply pages_loop_run in Eloop.
    destruct Eloop as (_ & run & Hh & Hrun).
    apply IH in E. destruct E as (runs & Hh' & Hruns).
    exists (run :: runs). split.
    + rewrite Hh'. change (history (emit (CompletedCountry country (length all1)) s1))
        with (history s1).
      rewrite Hh. change (history (emit (ScrapingCountry country) s))
        with (history s).
      cbn [concat]. rewrite <- app_assoc. reflexivity.
    + constructor; assumption.
Qed.

Lemma countries_sweep_terminates (fuel : nat) (max_pages : option Z) (m : Z)
  (todo : list string) :
  max_pages = Some m -> m <> 0 -> (Z.to_nat m < fuel)%nat ->
  forall (all : list FencerProfile.t) (s : Scraper W),
    countries_sweep fuel max_pages todo all s <> None.
Proof.
  intros Hm Hm0 Hfuel.
  induction todo as [|country rest IH]; intros all s.
  - discriminate.
  - cbn [countries_sweep].
    destruct (pages_loop fuel max_pages country 1 all
                (emit (ScrapingCountry country) s))
      as [[all1 s1]|] eqn:Eloop.
    + apply IH.
    + exfalso.
      apply (pages_loop_terminates max_pages country m Hm Hm0 fuel 1 all
               (emit (ScrapingCountry country) s)); [|exact Eloop].
      replace (m - 1 + 1) with m by lia. exact Hfuel.
Qed.

(** C6, amended: for every country of the fencer sweep the pages fetched
    are 1, 2, 3, ... in order; every fetch but the last returned at least
    one profile, and the paging for the country ends at the first fetch that
    returns the empty list or, under a ceiling max_pages other than 0, once
    page max_pages was fetched; under such a ceiling no page above max_pages
    is fetched, and the sweep terminates.  A ceiling of 0 counts as no
    ceiling. *)
Theorem fencer_sweep_paging (fuel : nat) (max_pages : option Z)
  (countries_arg : option (list string)) (s : Scraper W) :
  (forall all s',
      scrape_all_fencers fuel max_pages countries_arg s = Some (Ok all, s') ->
      exists runs,
        history s' = history s ++ concat runs
        /\ Forall2 (country_run max_pages)
             (countries_to_scrape countries_arg s) runs)
  /\ (forall m, max_pages = Some m -> m <> 0 -> (Z.to_nat m < fuel)%nat ->
      scrape_all_fencers fuel max_pages countries_arg s <> None).
Proof.
  unfold scrape_all_fencers.
  destruct (ensure_driver_frame s) as [_ Hh0].
  destruct (ensure_driver s) as [[[]|e] s1]; cbn [snd] in Hh0.
  - split.
    + intros all s' E.
      destruct (countries_sweep fuel max_pages
                  (countries_to_scrape countries_arg s) [] s1)
        as [[all1 s2]|] eqn:Esweep; [|discriminate].
      inversion E; subst.
      apply countries_sweep_runs in Esweep.
      destruct Esweep as (runs & Hh & Hruns).
      exists runs. split; [|exact Hruns].
      cbn [with_fencers_data history]. rewrite Hh, Hh0. reflexivity.
    + intros m Hm Hm0 Hfuel.
      pose proof (countries_sweep_terminates fuel max_pages m
                    (countries_to_scrape countries_arg s) Hm Hm0 Hfuel [] s1)
        as Hterm.
      destruct (countries_sweep fuel max_pages
                  (countries_to_scrape countries_arg s) [] s1)
        as [[all1 s2]|]; [discriminate | contradiction].
  - split; [discriminate|]. intros. discriminate.
Qed.

End FencerSweep.

Lemma fencer_sweep_paging_witness :
  exists all s',
    scrape_all_fencers 5 (Some 2) (Some ["FRA"; "ITA"])
      (ready (fencers_view [Some "2"; Some "3"])) = Some (Ok all, s')
    /\ exists runs,
         history s'
         = history (ready (fencers_view [Some "2"; Some "3"])) ++ concat runs
         /\ Forall2 (country_run (Some 2)) ["FRA"; "ITA"] runs.
Proof.
  destruct (scrape_all_fencers 5 (Some 2) (Some ["FRA"; "ITA"])
              (ready (fencers_view [Some "2"; Some "3"])))
    as [[[all|e] s']|] eqn:E; try (vm_compute in E; discriminate).
  exists all, s'. split; [reflexivity|].
  exact (proj1 (fencer_sweep_paging 5 (Some 2) (Some ["FRA"; "ITA"])
                  (ready (fencers_view [Some "2"; Some "3"])))
           all s' E).
Defined.

(** With [max_pages = 0] the sweep fetches pages 1 and 2 of the country:
    pages above the ceiling given. *)
Lemma zero_ceiling_fetches_pages :
  exists all s',
    scrape_all_fencers 3 (Some 0) (Some ["FRA"]) (ready (fencers_view []))
    = Some (Ok all, s')
    /\ history s' = [FencersPageCall 1 "FRA" 1; FencersPageCall 2 "FRA" 0]
    /\ In (FencersPageCall 1 "FRA" 1) (history s')
    /\ 0 < 1.
Proof.
  eexists. eexists. split; [vm_compute; reflexivity|].
  split; [reflexivity|]. split; [left; reflexivity | lia].
Qed.

(** ** Country discovery *)

Section CountryDiscovery.

Context {W : Type} `{Browser W}.

Lemma countries_loop_no_large (selects : list (list (option string))) :
  Forall (fun options => (length options <= 50)%nat) selects ->
  forall s : Scraper W, countries_loop selects s = (Ok None, s).
Proof.
  induction 1 as [|options rest Hle _ IH]; intros s.
  - reflexivity.
  - cbn [countries_loop].
    destruct (Nat.ltb_spec 50 (length options)); [lia | apply IH].
Qed.

(** When no select control of the view has more than 50 options,
    [get_countries_list] returns [None] if it reaches the loop over the
    selects, and the empty list if a driver command raised before. *)
Lemma get_countries_list_no_large_select (s : Scraper W) :
  (forall w, Forall (fun options => (length options <= 50)%nat)
               (dom_selects (dom w))) ->
  fst (get_countries_list s) = None \/ fst (get_countries_list s) = Some [].
Proof.
  intros Hsmall.
  destruct (get_countries_list s) as [r s'] eqn:E. cbn [fst].
  unfold get_countries_list, try_except_all in E.
  unfold bind at 1 in E.
  destruct (drive (Get (base_url ++ "/competitions/fencers")%string) s)
    as [[[]|e] s1]; [|inversion E; auto].
  unfold bind at 1 in E. unfold total at 1 in E.
  destruct (handle_cookie_consent s1) as [[] s2].
  unfold bind at 1 in E.
  destruct (drive (WaitPresent (ByCss "select") 10) s2) as [[[]|e] s3];
    [|inversion E; auto].
  unfold bind at 1 in E. unfold current_dom in E.
  destruct (driver s3); [|inversion E; auto].
  rewrite (countries_loop_no_large _ (Hsmall (world s3))) in E.
  inversion E. auto.
Qed.

End CountryDiscovery.

(** * Further properties of the scraper *)

(** ** Tables: what the row loops return *)

Lemma rbind_Ok {A B} (r : Result A) (k : A -> Result B) (b : B) :
  rbind r k = Ok b -> exists a, r = Ok a /\ k a = Ok b.
Proof. destruct r as [a|e]; [|discriminate]. intros E. exists a. auto. Qed.

Lemma parse_fencer_row_raises (gender : string) (cells : Row) (e : Exn) :
  parse_fencer_row gender cells = Raise e -> e = ValueError.
Proof.
  intros E. destruct (Nat.leb_spec 7 (length cells)) as [Hlen|Hlen].
  - destruct (long_fencer_row_outcome gender cells Hlen) as [[f Hf]|Hr];
      congruence.
  - rewrite (short_fencer_row_skipped gender cells) in E by lia. discriminate.
Qed.

Lemma parse_ranking_row_raises (gender weapon age_category season : string)
  (cells : Row) (e : Exn) :
  parse_ranking_row gender weapon age_category season cells = Raise e ->
  e = ValueError.
Proof.
  intros E. destruct (Nat.leb_spec 6 (length cells)) as [Hlen|Hlen].
  - destruct (long_ranking_row_outcome gender weapon age_category season
                cells Hlen) as [[r Hr]|Hr]; congruence.
  - rewrite (short_ranking_row_skipped gender weapon age_category season cells)
      in E by lia.
    discriminate.
Qed.

Section Tables.

Context {W : Type} `{Browser W}.

Lemma fencer_rows_loop_eq (gender : string) (rows : list Row) :
  forall (acc : list FencerProfile.t) (s : Scraper W),
    fencer_rows_loop gender rows acc s
    = (Ok (acc ++ parsed_fencers gender rows),
       with_log (log s ++ fencer_row_warnings gender rows) s).
Proof.
  induction rows as [|cells rest IH]; intros acc s.
  - cbn [fencer_rows_loop parsed_fencers fencer_row_warnings flat_map].
    rewrite !app_nil_r. destruct s; reflexivity.
  - cbn [fencer_rows_loop parsed_fencers fencer_row_warnings flat_map].
    destruct (parse_fencer_row gender cells) as [[f|]|e] eqn:E.
    + rewrite IH. cbn [app]. rewrite <- app_assoc. reflexivity.
    + rewrite IH. reflexivity.
    + rewrite (parse_fencer_row_raises _ _ _ E).
      cbn [is_value_or_index_error]. unfold bind, log_event.
      rewrite IH. cbn [with_log log app]. rewrite <- app_assoc.
      reflexivity.
Qed.

Lemma ranking_rows_loop_eq (gender weapon age_category season : string)
  (rows : list Row) :
  forall (acc : list RankingEntry.t) (s : Scraper W),
    ranking_rows_loop gender weapon age_category season rows acc s
    = (Ok (acc ++ parsed_rankings gender weapon age_category season rows),
       with_log
         (log s ++ ranking_row_warnings gender weapon age_category season rows)
         s).
Proof.
  induction rows as [|cells rest IH]; intros acc s.
  - cbn [ranking_rows_loop parsed_rankings ranking_row_warnings flat_map].
    rewrite !app_nil_r. destruct s; reflexivity.
  - cbn [ranking_rows_loop parsed_rankings ranking_row_warnings flat_map].
    destruct (parse_ranking_row gender weapon age_category season cells)
      as [[r|]|e] eqn:E.
    + rewrite IH. cbn [app]. rewrite <- app_assoc. reflexivity.
    + rewrite IH. reflexivity.
    + rewrite (parse_ranking_row_raises _ _ _ _ _ _ E).
      cbn [is_value_or_index_error]. unfold bind, log_event.
      rewrite IH. cbn [with_log log app]. rewrite <- app_assoc.
      reflexivity.
Qed.



End Tables.

(** ** Records: what a parsed row holds *)

Ltac invert_rbind H :=
  repeat (let a := fresh "c" in
          let E := fresh "E" in
          apply rbind_Ok in H; destruct H as (a & E & H)).

Lemma parse_fencer_row_fields (gender : string) (cells : Row)
  (fencer : FencerProfile.t) :
  parse_fencer_row gender cells = Ok (Some fencer) ->
  FencerProfile.gender fencer = gender_marker gender
  /\ (exists c5, cell_text cells 5 = Ok c5
                 /\ int_or_zero (PyStr.strip c5)
                    = Ok (FencerProfile.birth_year fencer))
  /\ (exists c0 c1 c2 c3 c4,
        FencerProfile.licence fencer = PyStr.strip c0
        /\ FencerProfile.last_name fencer = PyStr.strip c1
        /\ FencerProfile.first_name fencer = PyStr.strip c2
        /\ FencerProfile.club fencer = PyStr.strip c3
        /\ FencerProfile.nation fencer = PyStr.strip c4)
  /\ (exists c6, FencerProfile.handedness fencer = PyStr.strip c6).
Proof.
  unfold parse_fencer_row. intros E.
  destruct (Nat.leb_spec 7 (length cells)) as [Hmin|Hmin]; [|discriminate].
  destruct (Nat.ltb_spec 6 (length cells)) as [Hlen|Hlen]; [|lia].
  invert_rbind E. inversion E; subst fencer; cbn.
  match goal with
  | Hh : rbind _ _ = Ok _ |- _ =>
      let t := fresh "t" in
      apply rbind_Ok in Hh; destruct Hh as (t & _ & Hh); inversion Hh
  end.
  repeat split; eauto 10.
Qed.

Lemma parse_ranking_row_fields (gender weapon age_category season : string)
  (cells : Row) (entry : RankingEntry.t) :
  parse_ranking_row gender weapon age_category season cells = Ok (Some entry) ->
  label_of entry = RankingsCall gender weapon age_category season
  /\ (exists c0, cell_text cells 0 = Ok c0
                 /\ int_or_zero (PyStr.strip c0) = Ok (RankingEntry.rank entry))
  /\ coefficient_of cells = Ok (RankingEntry.coefficient entry)
  /\ (exists c1 c2 c3 c4 c5,
        RankingEntry.competition entry = PyStr.strip c1
        /\ RankingEntry.venue entry = PyStr.strip c2
        /\ RankingEntry.nation entry = PyStr.strip c3
        /\ RankingEntry.category entry = PyStr.strip c4
        /\ RankingEntry.discipline entry = PyStr.strip c5).
Proof.
  unfold parse_ranking_row. intros E.
  destruct (6 <=? length cells)%nat; [|discriminate].
  invert_rbind E. inversion E; subst entry; cbn.
  repeat split; eauto 10.
Qed.

Lemma digit_value_nonneg (c : ascii) :
  PyStr.isdecimal_char c = true -> 0 <= PyStr.digit_value c <= 9.
Proof.
  unfold PyStr.isdecimal_char, PyStr.digit_value. intros E.
  apply andb_prop in E. destruct E as [E1 E2].
  apply N.leb_le in E1. apply N.leb_le in E2. lia.
Qed.

Lemma decimal_value_nonneg (s : string) :
  forall acc, PyStr.forallb_str PyStr.isdecimal_char s = true ->
              0 <= acc -> 0 <= PyStr.decimal_value acc s.
Proof.
  induction s as [|c r IH]; intros acc E Hacc.
  - exact Hacc.
  - cbn [PyStr.forallb_str] in E. apply andb_prop in E. destruct E as [Ec Er].
    cbn [PyStr.decimal_value]. apply IH; [exact Er|].
    pose proof (digit_value_nonneg c Ec). lia.
Qed.

Lemma int_or_zero_nonneg (t : string) (z : Z) :
  int_or_zero t = Ok z -> 0 <= z.
Proof.
  unfold int_or_zero, int_of_digits.
  destruct (PyStr.isdigit t); [|intros E; inversion E; lia].
  destruct (negb (t =? "")%string) ; cbn [andb]; [|discriminate].
  destruct (PyStr.forallb_str PyStr.isdecimal_char t) eqn:Ed; [|discriminate].
  intros E. inversion E. apply decimal_value_nonneg; [exact Ed | lia].
Qed.

Lemma float_of_decimal_nonneg (t : string) (q : Q) :
  float_of_decimal t = Ok q -> (0 <= q)%Q.
Proof.
  unfold float_of_decimal.
  match goal with |- (if ?b then _ else _) = _ -> _ => destruct b eqn:C end;
    [|discriminate].
  apply andb_prop in C. destruct C as [C _].
  apply andb_prop in C. destruct C as [_ Ed].
  intros E.
  match type of E with
  | Ok (Qred ?x) = _ =>
      assert (Hq : q = Qred x) by congruence; rewrite Hq;
      apply (Qle_trans _ x)
  end.
  - unfold Qle. cbn [Qnum Qden].
    pose proof (decimal_value_nonneg _ 0 Ed (Z.le_refl 0)). lia.
  - apply (proj2 (Qle_lteq _ _)). right. symmetry. apply Qred_correct.
Qed.

Lemma coefficient_of_nonneg (cells : Row) (q : Q) :
  coefficient_of cells = Ok q -> (0 <= q)%Q.
Proof.
  unfold coefficient_of.
  destruct (6 <? length cells)%nat;
    [|intros E; inversion E; apply Qle_refl].
  destruct (cell_text cells 6) as [c6|]; cbn [rbind]; [|discriminate].
  destruct (PyStr.isdigit (PyStr.remove_char "." (PyStr.strip c6)));
    [|intros E; inversion E; apply Qle_refl].
  apply float_of_decimal_nonneg.
Qed.

(** X3.  No parsed record holds a negative number: the birth year of a
    profile, and the rank and the coefficient of a ranking entry, are at
    least zero (a cell with a sign fails the digit test and becomes 0). *)
Theorem parsed_numbers_nonnegative
  (gender weapon age_category season : string) (cells : Row) :
  (forall fencer,
      parse_fencer_row gender cells = Ok (Some fencer) ->
      0 <= FencerProfile.birth_year fencer)
  /\ (forall entry,
         parse_ranking_row gender weapon age_category season cells
         = Ok (Some entry) ->
         0 <= RankingEntry.rank entry
         /\ (0 <= RankingEntry.coefficient entry)%Q).
Proof.
  split.
  - intros fencer E.
    destruct (parse_fencer_row_fields _ _ _ E) as (_ & (c5 & _ & Hy) & _).
    apply (int_or_zero_nonneg _ _ Hy).
  - intros entry E.
    destruct (parse_ranking_row_fields _ _ _ _ _ _ E)
      as (_ & (c0 & _ & Hr) & Hc & _).
    split; [apply (int_or_zero_nonneg _ _ Hr) | apply (coefficient_of_nonneg _ _ Hc)].
Qed.

(** ** Page fetchers: what they return *)

Section Fetchers.

Context {W : Type} `{Browser W}.

Lemma bind_Ok {A B} (m : M W A) (k : A -> M W B) (s s' : Scraper W) (b : B) :
  bind m k s = (Ok b, s') ->
  exists a s1, m s = (Ok a, s1) /\ k a s1 = (Ok b, s').
Proof.
  unfold bind. destruct (m s) as [[a|e] s1]; [|discriminate].
  intros E. exists a, s1. auto.
Qed.

Lemma extract_fencers_result (page : Z) (gender : string)
  (s s' : Scraper W) (fencers : list FencerProfile.t) :
  extract_fencers page gender s = (Ok fencers, s') ->
  fencers = parsed_fencers gender (tl (dom_rows (dom (world s)))).
Proof.
  unfold extract_fencers. intros E.
  apply bind_Ok in E. destruct E as (d & s1 & Ed & E).
  unfold current_dom in Ed. destruct (driver s); [|discriminate].
  inversion Ed; subst d s1.
  apply bind_Ok in E. destruct E as (fs & s2 & El & E).
  rewrite fencer_rows_loop_eq in El. inversion El; subst fs s2.
  unfold bind, log_event, ret in E. inversion E. reflexivity.
Qed.

(** What a fencer page fetch returns: nothing, or the profiles of the rows
    of a table. *)
Lemma scrape_fencers_page_result (page : Z)
  (country first_name last_name gender : string) (s : Scraper W) :
  fst (scrape_fencers_page page country first_name last_name gender s) = []
  \/ exists rows,
       fst (scrape_fencers_page page country first_name last_name gender s)
       = parsed_fencers gender rows.
Proof.
  destruct (scrape_fencers_page page country first_name last_name gender s)
    as [fencers s'] eqn:E. cbn [fst].
  unfold scrape_fencers_page, try_except_all in E.
  match type of E with
  | context [match ?m s with _ => _ end] =>
      destruct (m s) as [[a|e] s1] eqn:Eb
  end; inversion E; subst; [|left; reflexivity].
  apply bind_Ok in Eb. destruct Eb as ([] & s2 & _ & Eb).
  apply bind_Ok in Eb. destruct Eb as (on_page & s3 & _ & Eb).
  destruct on_page.
  - right. eexists. apply (extract_fencers_result _ _ _ _ _ Eb).
  - left. inversion Eb. reflexivity.
Qed.

Lemma scrape_rankings_result (gender weapon age_category season country : string)
  (s : Scraper W) :
  fst (scrape_rankings gender weapon age_category season country s) = []
  \/ exists rows,
       fst (scrape_rankings gender weapon age_category season country s)
       = parsed_rankings gender weapon age_category season rows.
Proof.
  destruct (scrape_rankings gender weapon age_category season country s)
    as [rankings s'] eqn:E. cbn [fst].
  unfold scrape_rankings, try_except_all in E.
  match type of E with
  | context [match ?m s with _ => _ end] =>
      destruct (m s) as [[a|e] s1] eqn:Eb
  end; inversion E; subst; [|left; reflexivity].
  right.
  apply bind_Ok in Eb. destruct Eb as ([] & s2 & _ & Eb).
  apply bind_Ok in Eb. destruct Eb as ([] & s3 & _ & Eb).
  apply bind_Ok in Eb. destruct Eb as (d & s4 & _ & Eb).
  apply bind_Ok in Eb. destruct Eb as ([] & s5 & _ & Eb).
  apply bind_Ok in Eb. destruct Eb as ([] & s6 & _ & Eb).
  apply bind_Ok in Eb. destruct Eb as ([] & s7 & _ & Eb).
  apply bind_Ok in Eb. destruct Eb as (d' & s8 & _ & Eb).
  apply bind_Ok in Eb. destruct Eb as (rs & s9 & El & Eb).
  rewrite ranking_rows_loop_eq in El. inversion El; subst rs s9.
  unfold bind, log_event, ret in Eb. inversion Eb.
  eexists. reflexivity.
Qed.

End Fetchers.

Lemma parsed_rankings_labels (gender weapon age_category season : string)
  (rows : list Row) :
  Forall
    (fun entry => label_of entry = RankingsCall gender weapon age_category season)
    (parsed_rankings gender weapon age_category season rows).
Proof.
  apply Forall_forall. intros entry Hin.
  unfold parsed_rankings in Hin. apply in_flat_map in Hin.
  destruct Hin as (cells & _ & Hin).
  destruct (parse_ranking_row gender weapon age_category season cells)
    as [[r|]|e] eqn:E; try contradiction.
  destruct Hin as [<-|[]].
  apply (parse_ranking_row_fields _ _ _ _ _ _ E).
Qed.

Lemma parsed_fencers_gender (gender : string) (rows : list Row) :
  Forall (fun fencer => FencerProfile.gender fencer = gender_marker gender)
    (parsed_fencers gender rows).
Proof.
  apply Forall_forall. intros fencer Hin.
  unfold parsed_fencers in Hin. apply in_flat_map in Hin.
  destruct Hin as (cells & _ & Hin).
  destruct (parse_fencer_row gender cells) as [[f|]|e] eqn:E;
    try contradiction.
  destruct Hin as [<-|[]].
  apply (parse_fencer_row_fields _ _ _ E).
Qed.

Section FetcherRecords.

Context {W : Type} `{Browser W}.

Lemma scrape_fencers_page_gender (page : Z)
  (country first_name last_name gender : string) (s : Scraper W) :
  Forall (fun fencer => FencerProfile.gender fencer = gender_marker gender)
    (fst (scrape_fencers_page page country first_name last_name gender s)).
Proof.
  destruct (scrape_fencers_page_result page country first_name last_name
              gender s) as [->|[rows ->]].
  - constructor.
  - apply parsed_fencers_gender.
Qed.

(** X4.  Every ranking entry a rankings fetch returns is labelled with the
    gender, weapon, age category and season the fetch was called with,
    whatever the page showed and whether or not the page had the five select
    controls the filters are applied to. *)
Theorem scrape_rankings_labels
  (gender weapon age_category season country : string) (s : Scraper W) :
  Forall
    (fun entry =>
       RankingEntry.gender entry = gender
       /\ RankingEntry.weapon entry = weapon
       /\ RankingEntry.age_group entry = age_category
       /\ RankingEntry.season entry = season)
    (fst (scrape_rankings gender weapon age_category season country s)).
Proof.
  destruct (scrape_rankings_result gender weapon age_category season country s)
    as [->|[rows ->]]; [constructor|].
  eapply Forall_impl; [|apply parsed_rankings_labels].
  intros entry E. unfold label_of in E. inversion E. auto.
Qed.

(** X5.  Every profile a fencer page fetch returns carries the same gender
    marker, the one derived from the gender filter of the call; the marker
    is "M" or empty, never "F". *)
Theorem scrape_fencers_page_markers (page : Z)
  (country first_name last_name gender : string) (s : Scraper W) :
  Forall
    (fun fencer =>
       FencerProfile.gender fencer = gender_marker gender
       /\ (FencerProfile.gender fencer = "M"
           \/ FencerProfile.gender fencer = ""))
    (fst (scrape_fencers_page page country first_name last_name gender s)).
Proof.
  eapply Forall_impl; [|apply scrape_fencers_page_gender].
  intros fencer ->. split; [reflexivity|].
  unfold gender_marker.
  destruct (PyStr.contains "men" (PyStr.lower gender)) eqn:Emen; [auto|].
  destruct (PyStr.contains "women" (PyStr.lower gender)) eqn:Ewomen; [|auto].
  apply contains_women_men in Ewomen. congruence.
Qed.

Lemma pages_loop_forall (P : FencerProfile.t -> Prop)
  (max_pages : option Z) (country : string) :
  (forall page s,
      Forall P (fst (scrape_fencers_page page country "" "" "" s))) ->
  forall (fuel : nat) (page : Z) (all : list FencerProfile.t) (s : Scraper W)
         (all' : list FencerProfile.t) (s' : Scraper W),
    Forall P all ->
    pages_loop fuel max_pages country page all s = Some (all', s') ->
    Forall P all'.
Proof.
  intros Hpage. induction fuel as [|fuel IH]; intros page all s all' s' Hall E.
  - discriminate.
  - cbn [pages_loop] in E.
    destruct (past_ceiling max_pages page); [inversion E; subst; exact Hall|].
    pose proof (Hpage page s) as Hp.
    destruct (scrape_fencers_page page country "" "" "" s) as [fencers s1].
    cbn [fst] in Hp.
    destruct fencers as [|f fs]; [inversion E; subst; exact Hall|].
    apply (IH _ _ _ _ _ (proj2 (Forall_app _ _ _) (conj Hall Hp)) E).
Qed.

Lemma countries_sweep_forall (P : FencerProfile.t -> Prop)
  (fuel : nat) (max_pages : option Z) :
  (forall page country s,
      Forall P (fst (scrape_fencers_page page country "" "" "" s))) ->
  forall (todo : list string) (all : list FencerProfile.t) (s : Scraper W)
         (all' : list FencerProfile.t) (s' : Scraper W),
    Forall P all ->
    countries_sweep fuel max_pages todo all s = Some (all', s') ->
    Forall P all'.
Proof.
  intros Hpage. induction todo as [|country rest IH];
    intros all s all' s' Hall E.
  - inversion E; subst. exact Hall.
  - cbn [countries_sweep] in E.
    destruct (pages_loop fuel max_pages country 1 all
                (emit (ScrapingCountry country) s))
      as [[all1 s1]|] eqn:Eloop; [|discriminate].
    apply (IH _ _ _ _ (pages_loop_forall P max_pages country
                         (fun page s => Hpage page country s)
                         _ _ _ _ _ _ Hall Eloop) E).
Qed.

Lemma scrape_all_fencers_Ok (fuel : nat) (max_pages : option Z)
  (countries_arg : option (list string)) (s : Scraper W)
  (all : list FencerProfile.t) (s' : Scraper W) :
  scrape_all_fencers fuel max_pages countries_arg s = Some (Ok all, s') ->
  exists s1 s2,
    ensure_driver s = (Ok tt, s1)
    /\ countries_sweep fuel max_pages (countries_to_scrape countries_arg s)
         [] s1 = Some (all, s2)
    /\ s' = with_fencers_data all s2.
Proof.
  unfold scrape_all_fencers.
  destruct (ensure_driver s) as [[[]|e] s1] eqn:Ed; [|discriminate].
  destruct (countries_sweep fuel max_pages
              (countries_to_scrape countries_arg s) [] s1)
    as [[all1 s2]|] eqn:Es; [|discriminate].
  intros E. inversion E; subst. exists s1, s2. repeat split. exact Es.
Qed.

(** X6.  The fencer sweep never records a gender: it calls the page fetch
    without a gender filter, so every profile it returns, and every profile
    it stores in [fencers_data], has the empty gender. *)
Theorem fencer_sweep_gender_blank (fuel : nat) (max_pages : option Z)
  (countries_arg : option (list string)) (s : Scraper W)
  (all : list FencerProfile.t) (s' : Scraper W) :
  scrape_all_fencers fuel max_pages countries_arg s = Some (Ok all, s') ->
  Forall (fun fencer => FencerProfile.gender fencer = "") all
  /\ fencers_data s' = all.
Proof.
  intros E. apply scrape_all_fencers_Ok in E.
  destruct E as (s1 & s2 & _ & Esweep & ->). split; [|reflexivity].
  apply (countries_sweep_forall _ fuel max_pages
           (fun page country s0 =>
              scrape_fencers_page_gender page country "" "" "" s0)
           _ _ _ _ _ (Forall_nil _) Esweep).
Qed.

End FetcherRecords.

Lemma fencer_sweep_gender_blank_witness :
  exists all s',
    scrape_all_fencers 5 (Some 2) (Some ["FRA"; "ITA"])
      (ready (fencers_view [Some "2"; Some "3"])) = Some (Ok all, s')
    /\ all <> []
    /\ Forall (fun fencer => FencerProfile.gender fencer = "") all.
Proof.
  destruct (scrape_all_fencers 5 (Some 2) (Some ["FRA"; "ITA"])
              (ready (fencers_view [Some "2"; Some "3"])))
    as [[[all|e] s']|] eqn:E; try (vm_compute in E; discriminate).
  exists all, s'. split; [reflexivity|]. split.
  - vm_compute in E. inversion E. discriminate.
  - exact (proj1 (fencer_sweep_gender_blank 5 (Some 2) (Some ["FRA"; "ITA"])
                    (ready (fencers_view [Some "2"; Some "3"])) all s' E)).
Defined.

(** ** Sweeps: what they return *)

Lemma returned_total_app (l1 l2 : list Call) :
  returned_total (l1 ++ l2) = (returned_total l1 + returned_total l2)%nat.
Proof.
  induction l1 as [|c l1 IH]; [reflexivity|].
  cbn [app returned_total fold_right]. fold (returned_total (l1 ++ l2)).
  fold (returned_total l1). rewrite IH. destruct c; lia.
Qed.

Section SweepResults.

Context {W : Type} `{Browser W}.

Lemma pages_loop_total (max_pages : option Z) (country : string) (fuel : nat) :
  forall (page : Z) (all : list FencerProfile.t) (s : Scraper W)
         (all' : list FencerProfile.t) (s' : Scraper W),
    pages_loop fuel max_pages country page all s = Some (all', s') ->
    exists run,
      history s' = history s ++ run
      /\ length all' = (length all + returned_total run)%nat.
Proof.
  induction fuel as [|fuel IH]; intros page all s all' s' E.
  - discriminate.
  - cbn [pages_loop] in E.
    destruct (past_ceiling max_pages page).
    + inversion E; subst. exists []. rewrite app_nil_r. split; [reflexivity|].
      cbn. lia.
    + pose proof (scrape_fencers_page_frame page country "" "" "" s)
        as [_ Hh].
      destruct (scrape_fencers_page page country "" "" "" s)
        as [fencers s1].
      cbn [fst snd] in Hh.
      destruct fencers as [|f fs].
      * inversion E; subst. eexists. split; [exact Hh|]. cbn. lia.
      * apply IH in E. destruct E as (run & Hh' & Hlen).
        exists (FencersPageCall page country (length (f :: fs)) :: run).
        split.
        { rewrite Hh'. change (history (pause 2 s1)) with (history s1).
          rewrite Hh, <- app_assoc. reflexivity. }
        rewrite Hlen, length_app.
        cbn [returned_total fold_right]. fold (returned_total run). lia.
Qed.

Lemma countries_sweep_total (fuel : nat) (max_pages : option Z)
  (todo : list string) :
  forall (all : list FencerProfile.t) (s : Scraper W)
         (all' : list FencerProfile.t) (s' : Scraper W),
    countries_sweep fuel max_pages todo all s = Some (all', s') ->
    exists run,
      history s' = history s ++ run
      /\ length all' = (length all + returned_total run)%nat.
Proof.
  induction todo as [|country rest IH]; intros all s all' s' E.
  - inversion E; subst. exists []. rewrite app_nil_r. split; [reflexivity|].
    cbn. lia.
  - cbn [countries_sweep] in E.
    destruct (pages_loop fuel max_pages country 1 all
                (emit (ScrapingCountry country) s))
      as [[all1 s1]|] eqn:Eloop; [|discriminate].
    apply pages_loop_total in Eloop. destruct Eloop as (run1 & Hh1 & Hl1).
    apply IH in E. destruct E as (run2 & Hh2 & Hl2).
    exists (run1 ++ run2). split.
    + rewrite Hh2.
      change (history (emit (CompletedCountry country (length all1)) s1))
        with (history s1).
      rewrite Hh1.
      change (history (emit (ScrapingCountry country) s)) with (history s).
      rewrite app_assoc. reflexivity.
    + rewrite Hl2, Hl1, returned_total_app. lia.
Qed.

(** X7.  The fencer sweep returns exactly as many profiles as its page
    fetches returned together: the pages are concatenated, nothing is
    dropped or deduplicated, and the list returned is the one stored in
    [fencers_data] (whatever was stored there before). *)
Theorem fencer_sweep_total (fuel : nat) (max_pages : option Z)
  (countries_arg : option (list string)) (s : Scraper W)
  (all : list FencerProfile.t) (s' : Scraper W) :
  scrape_all_fencers fuel max_pages countries_arg s = Some (Ok all, s') ->
  exists run,
    history s' = history s ++ run
    /\ length all = returned_total run
    /\ fencers_data s' = all.
Proof.
  intros E. apply scrape_all_fencers_Ok in E.
  destruct E as (s1 & s2 & Ed & Esweep & ->).
  apply countries_sweep_total in Esweep. destruct Esweep as (run & Hh & Hl).
  exists run. repeat split; [|exact Hl].
  cbn [with_fencers_data history]. rewrite Hh.
  pose proof (ensure_driver_frame s) as [_ Hh0]. rewrite Ed in Hh0.
  cbn [snd] in Hh0. rewrite Hh0. reflexivity.
Qed.

End SweepResults.

Lemma fencer_sweep_total_witness :
  exists all s' run,
    scrape_all_fencers 5 (Some 2) (Some ["FRA"; "ITA"])
      (ready (fencers_view [Some "2"; Some "3"])) = Some (Ok all, s')
    /\ history s'
       = history (ready (fencers_view [Some "2"; Some "3"])) ++ run
    /\ length all = returned_total run
    /\ length all = 4%nat.
Proof.
  destruct (scrape_all_fencers 5 (Some 2) (Some ["FRA"; "ITA"])
              (ready (fencers_view [Some "2"; Some "3"])))
    as [[[all|e] s']|] eqn:E; try (vm_compute in E; discriminate).
  destruct (fencer_sweep_total 5 (Some 2) (Some ["FRA"; "ITA"])
              (ready (fencers_view [Some "2"; Some "3"])) all s' E)
    as (run & Hh & Hl & _).
  exists all, s', run. repeat split; try assumption.
  vm_compute in E. inversion E. reflexivity.
Defined.

Lemma in_combinations (fc : FilterConfig) (g w a se : string) :
  In g (genders fc) -> In w (weapons fc) -> In a (age_categories fc) ->
  In se (seasons fc) -> In (RankingsCall g w a se) (combinations fc).
Proof.
  intros Hg Hw Ha Hs. unfold combinations, gender_calls.
  apply in_flat_map. exists g. split; [exact Hg|].
  unfold weapon_calls. apply in_flat_map. exists w. split; [exact Hw|].
  unfold age_category_calls. apply in_flat_map. exists a. split; [exact Ha|].
  unfold season_calls. apply in_map. exact Hs.
Qed.

Section RankingSweepResults.

Context {W : Type} `{Browser W}.

Variable limit : option Z.
Variable fc : FilterConfig.

Lemma seasons_loop_labelled (g w a : string) (todo : list string) :
  In g (genders fc) -> In w (weapons fc) -> In a (age_categories fc) ->
  incl todo (seasons fc) ->
  forall (p : Progress) (s : Scraper W),
    Forall (labelled fc) (fst p) ->
    Forall (labelled fc) (fst (fst (seasons_loop limit g w a todo p s))).
Proof.
  intros Hg Hw Ha. induction todo as [|se rest IH]; intros Hincl p s Hp.
  - exact Hp.
  - cbn [seasons_loop].
    destruct (limit_reached limit (snd p)); [exact Hp|].
    pose proof (scrape_rankings_result g w a se ""
                  (emit (ScrapingCombination g w a se) s)) as Hres.
    destruct (scrape_rankings g w a se ""
                (emit (ScrapingCombination g w a se) s)) as [rankings s1].
    cbn [fst] in Hres.
    apply IH; [intros x Hx; apply Hincl; right; exact Hx|].
    cbn [fst]. apply Forall_app. split; [exact Hp|].
    destruct Hres as [->|[rows ->]]; [constructor|].
    eapply Forall_impl; [|apply parsed_rankings_labels].
    intros entry E. unfold labelled. rewrite E.
    apply in_combinations; auto. apply Hincl. left. reflexivity.
Qed.

Lemma age_categories_loop_labelled (g w : string) (todo : list string) :
  In g (genders fc) -> In w (weapons fc) ->
  incl todo (age_categories fc) ->
  forall (p : Progress) (s : Scraper W),
    filter_config s = fc ->
    Forall (labelled fc) (fst p) ->
    Forall (labelled fc) (fst (fst (age_categories_loop limit g w todo p s))).
Proof.
  intros Hg Hw. induction todo as [|a rest IH]; intros Hincl p s Hfc Hp.
  - exact Hp.
  - cbn [age_categories_loop].
    pose proof (seasons_loop_spec limit g w a (seasons (filter_config s)) p s)
      as (Hs & _).
    pose proof (seasons_loop_labelled g w a (seasons (filter_config s)) Hg Hw
                  (Hincl a (or_introl eq_refl))
                  ltac:(rewrite Hfc; apply incl_refl) p s Hp) as Hl.
    destruct (seasons_loop limit g w a (seasons (filter_config s)) p s)
      as [p1 s1].
    cbn [fst snd] in Hs, Hl.
    destruct (limit_reached limit (snd p1)); [exact Hl|].
    apply IH; [intros x Hx; apply Hincl; right; exact Hx | | exact Hl].
    rewrite (settings_filter_config _ _ Hs). exact Hfc.
Qed.

Lemma weapons_loop_labelled (g : string) (todo : list string) :
  In g (genders fc) -> incl todo (weapons fc) ->
  forall (p : Progress) (s : Scraper W),
    filter_config s = fc ->
    Forall (labelled fc) (fst p) ->
    Forall (labelled fc) (fst (fst (weapons_loop limit g todo p s))).
Proof.
  intros Hg. induction todo as [|w rest IH]; intros Hincl p s Hfc Hp.
  - exact Hp.
  - cbn [weapons_loop].
    pose proof (age_categories_loop_spec limit g w
                  (age_categories (filter_config s)) p s) as (Hs & _).
    pose proof (age_categories_loop_labelled g w
                  (age_categories (filter_config s)) Hg
                  (Hincl w (or_introl eq_refl))
                  ltac:(rewrite Hfc; apply incl_refl) p s Hfc Hp) as Hl.
    destruct (age_categories_loop limit g w
                (age_categories (filter_config s)) p s) as [p1 s1].
    cbn [fst snd] in Hs, Hl.
    destruct (limit_reached limit (snd p1)); [exact Hl|].
    apply IH; [intros x Hx; apply Hincl; right; exact Hx | | exact Hl].
    rewrite (settings_filter_config _ _ Hs). exact Hfc.
Qed.

Lemma genders_loop_labelled (todo : list string) :
  incl todo (genders fc) ->
  forall (p : Progress) (s : Scraper W),
    filter_config s = fc ->
    Forall (labelled fc) (fst p) ->
    Forall (labelled fc) (fst (fst (genders_loop limit todo p s))).
Proof.
  induction todo as [|g rest IH]; intros Hincl p s Hfc Hp.
  - exact Hp.
  - cbn [genders_loop].
    pose proof (weapons_loop_spec limit g (weapons (filter_config s)) p s)
      as (Hs & _).
    pose proof (weapons_loop_labelled g (weapons (filter_config s))
                  (Hincl g (or_introl eq_refl))
                  ltac:(rewrite Hfc; apply incl_refl) p s Hfc Hp) as Hl.
    destruct (weapons_loop limit g (weapons (filter_config s)) p s)
      as [p1 s1].
    cbn [fst snd] in Hs, Hl.
    destruct (limit_reached limit (snd p1)); [exact Hl|].
    apply IH; [intros x Hx; apply Hincl; right; exact Hx | | exact Hl].
    rewrite (settings_filter_config _ _ Hs). exact Hfc.
Qed.

End RankingSweepResults.

Section RankingSweepReturns.

Context {W : Type} `{Browser W}.

(** X8.  Every entry the ranking sweep returns is labelled with one of the
    configured combinations of gender, weapon, age category and season, and
    the list returned is the one stored in [rankings_data]. *)
Theorem ranking_sweep_labels (limit : option Z) (s : Scraper W)
  (rankings : list RankingEntry.t) :
  fst (scrape_all_rankings limit s) = Ok rankings ->
  Forall (fun entry => In (label_of entry) (combinations (filter_config s)))
    rankings
  /\ rankings_data (snd (scrape_all_rankings limit s)) = rankings.
Proof.
  unfold scrape_all_rankings.
  pose proof (ensure_driver_frame s) as [Hfc _].
  destruct (ensure_driver s) as [[[]|e] s1]; [|discriminate].
  cbn [snd] in Hfc.
  pose proof (genders_loop_labelled limit (filter_config s)
                (genders (filter_config s1))
                ltac:(rewrite Hfc; apply incl_refl) ([], 0) s1 Hfc
                (Forall_nil _)) as Hl.
  destruct (genders_loop limit (genders (filter_config s1)) ([], 0) s1)
    as [p s2].
  cbn [fst snd] in *. intros E. inversion E; subst. split; [exact Hl|].
  reflexivity.
Qed.

Lemma seasons_loop_reached (limit : option Z) (g w a : string)
  (todo : list string) (p : Progress) (s : Scraper W) :
  limit_reached limit (snd p) = true ->
  seasons_loop limit g w a todo p s = (p, s).
Proof. intros E. destruct todo; cbn [seasons_loop]; rewrite ?E; reflexivity. Qed.

Lemma age_categories_loop_reached (limit : option Z) (g w : string)
  (todo : list string) (p : Progress) (s : Scraper W) :
  limit_reached limit (snd p) = true ->
  age_categories_loop limit g w todo p s = (p, s).
Proof.
  intros E. destruct todo; cbn [age_categories_loop]; [reflexivity|].
  rewrite (seasons_loop_reached _ _ _ _ _ _ _ E), E. reflexivity.
Qed.

Lemma weapons_loop_reached (limit : option Z) (g : string)
  (todo : list string) (p : Progress) (s : Scraper W) :
  limit_reached limit (snd p) = true ->
  weapons_loop limit g todo p s = (p, s).
Proof.
  intros E. destruct todo; cbn [weapons_loop]; [reflexivity|].
  rewrite (age_categories_loop_reached _ _ _ _ _ _ E), E. reflexivity.
Qed.

Lemma genders_loop_reached (limit : option Z) (todo : list string)
  (p : Progress) (s : Scraper W) :
  limit_reached limit (snd p) = true ->
  genders_loop limit todo p s = (p, s).
Proof.
  intros E. destruct todo; cbn [genders_loop]; [reflexivity|].
  rewrite (weapons_loop_reached _ _ _ _ _ E), E. reflexivity.
Qed.

(** X9.  A negative ceiling stops the ranking sweep before its first
    fetch: once the session is open the sweep fetches nothing, returns the
    empty list and leaves [rankings_data] empty. *)
Theorem negative_ceiling_fetches_nothing (n : Z) (s : Scraper W) :
  n < 0 ->
  fst (ensure_driver s) = Ok tt ->
  fst (scrape_all_rankings (Some n) s) = Ok []
  /\ history (snd (scrape_all_rankings (Some n) s)) = history s
  /\ rankings_data (snd (scrape_all_rankings (Some n) s)) = [].
Proof.
  intros Hn Hdrv. unfold scrape_all_rankings.
  pose proof (ensure_driver_frame s) as [_ Hh].
  destruct (ensure_driver s) as [[[]|e] s1]; [|discriminate].
  cbn [snd] in Hh.
  rewrite genders_loop_reached.
  - cbn. auto.
  - unfold limit_reached, truthy_int. cbn [snd].
    destruct (Z.eqb_spec n 0); [lia|]. cbn.
    apply Z.leb_le. lia.
Qed.

End RankingSweepReturns.

Lemma ranking_sweep_labels_witness :
  exists rankings,
    fst (scrape_all_rankings (Some 3) (ready (rankings_view [paris_row])))
    = Ok rankings
    /\ length rankings = 3%nat
    /\ Forall
         (fun entry =>
            In (label_of entry)
              (combinations
                 (filter_config (ready (rankings_view [paris_row])))))
         rankings.
Proof.
  destruct (fst (scrape_all_rankings (Some 3)
                   (ready (rankings_view [paris_row]))))
    as [rankings|e] eqn:E; [|vm_compute in E; discriminate].
  exists rankings. split; [reflexivity|]. split.
  - vm_compute in E. inversion E. reflexivity.
  - exact (proj1 (ranking_sweep_labels (Some 3)
                    (ready (rankings_view [paris_row])) rankings E)).
Defined.

Lemma negative_ceiling_fetches_nothing_witness :
  fst (scrape_all_rankings (Some (-1)) (ready (rankings_view [paris_row])))
  = Ok []
  /\ history (snd (scrape_all_rankings (Some (-1))
                     (ready (rankings_view [paris_row]))))
     = history (ready (rankings_view [paris_row]))
  /\ rankings_data (snd (scrape_all_rankings (Some (-1))
                           (ready (rankings_view [paris_row]))))
     = [].
Proof.
  apply (negative_ceiling_fetches_nothing (-1)
           (ready (rankings_view [paris_row]))).
  - lia.
  - reflexivity.
Defined.

(** ** Text cells: trimming *)

Local Open Scope string_scope.

Lemma append_nil_r (s : string) : s ++ "" = s.
Proof. induction s as [|c r IH]; [reflexivity|]. simpl. rewrite IH. reflexivity. Qed.

Lemma append_assoc (a b c : string) : (a ++ b) ++ c = a ++ (b ++ c).
Proof. induction a as [|x a IH]; [reflexivity|]. simpl. rewrite IH. reflexivity. Qed.

Lemma length_append (a b : string) :
  String.length (a ++ b) = (String.length a + String.length b)%nat.
Proof. induction a as [|x a IH]; [reflexivity|]. simpl. rewrite IH. reflexivity. Qed.

Lemma rev_acc_append (s : string) :
  forall acc, PyStr.rev_acc s acc = PyStr.reverse s ++ acc.
Proof.
  unfold PyStr.reverse. induction s as [|c r IH]; intros acc.
  - reflexivity.
  - cbn [PyStr.rev_acc]. rewrite (IH (String c acc)), (IH (String c "")).
    rewrite append_assoc. reflexivity.
Qed.

Lemma reverse_cons (c : ascii) (s : string) :
  PyStr.reverse (String c s) = PyStr.reverse s ++ String c "".
Proof. unfold PyStr.reverse at 1. cbn [PyStr.rev_acc]. apply rev_acc_append. Qed.

Lemma reverse_append (a b : string) :
  PyStr.reverse (a ++ b) = PyStr.reverse b ++ PyStr.reverse a.
Proof.
  induction a as [|c a IH].
  - simpl. change (PyStr.reverse "") with "". rewrite append_nil_r. reflexivity.
  - simpl. rewrite !reverse_cons, IH, append_assoc. reflexivity.
Qed.

Lemma reverse_involutive (s : string) : PyStr.reverse (PyStr.reverse s) = s.
Proof.
  induction s as [|c r IH]; [reflexivity|].
  rewrite reverse_cons, reverse_append, IH. reflexivity.
Qed.

Lemma lstrip_length (s : string) :
  (String.length (PyStr.lstrip s) <= String.length s)%nat.
Proof.
  induction s as [|c r IH]; [simpl; lia|].
  cbn [PyStr.lstrip]. destruct (PyStr.isspace_char c); simpl in *; lia.
Qed.

Lemma lstrip_fixed (s : string) :
  PyStr.lstrip s = s
  <-> match s with
      | EmptyString => True
      | String c _ => PyStr.isspace_char c = false
      end.
Proof.
  destruct s as [|c r]; [tauto|].
  cbn [PyStr.lstrip]. destruct (PyStr.isspace_char c) eqn:E.
  - split; [|discriminate]. intros Heq.
    pose proof (lstrip_length r) as Hlen. rewrite Heq in Hlen.
    simpl in Hlen. lia.
  - tauto.
Qed.

Lemma lstrip_idempotent (s : string) :
  PyStr.lstrip (PyStr.lstrip s) = PyStr.lstrip s.
Proof.
  induction s as [|c r IH]; [reflexivity|].
  cbn [PyStr.lstrip]. destruct (PyStr.isspace_char c) eqn:E; [exact IH|].
  cbn [PyStr.lstrip]. rewrite E. reflexivity.
Qed.

Lemma lstrip_suffix (s : string) : exists pre, s = pre ++ PyStr.lstrip s.
Proof.
  induction s as [|c r [pre IH]].
  - exists "". reflexivity.
  - cbn [PyStr.lstrip]. destruct (PyStr.isspace_char c).
    + exists (String c pre). simpl. rewrite <- IH. reflexivity.
    + exists "". reflexivity.
Qed.

Lemma lstrip_fixed_prefix (a b : string) :
  PyStr.lstrip (a ++ b) = a ++ b -> a <> "" -> PyStr.lstrip a = a.
Proof.
  intros Hfix Ha. destruct a as [|c a]; [contradiction|].
  apply lstrip_fixed. apply lstrip_fixed in Hfix. exact Hfix.
Qed.

Lemma strip_idempotent (s : string) :
  PyStr.strip (PyStr.strip s) = PyStr.strip s.
Proof.
  unfold PyStr.strip, PyStr.rstrip.
  set (x := PyStr.lstrip s).
  set (z := PyStr.lstrip (PyStr.reverse x)).
  assert (Hclean : PyStr.lstrip (PyStr.reverse z) = PyStr.reverse z).
  { destruct (lstrip_suffix (PyStr.reverse x)) as [pre Hpre]. fold z in Hpre.
    assert (Hx : x = PyStr.reverse z ++ PyStr.reverse pre).
    { rewrite <- reverse_append, <- Hpre, reverse_involutive. reflexivity. }
    destruct (string_dec (PyStr.reverse z) "") as [->|Hne]; [reflexivity|].
    apply (lstrip_fixed_prefix _ (PyStr.reverse pre)); [|exact Hne].
    rewrite <- Hx. apply lstrip_idempotent. }
  rewrite Hclean, reverse_involutive. unfold z.
  rewrite lstrip_idempotent. reflexivity.
Qed.

(** X10.  The text fields of every parsed record are trimmed: stripping
    any of them again changes nothing. *)
Theorem parsed_texts_trimmed (gender weapon age_category season : string)
  (cells : Row) :
  (forall fencer,
      parse_fencer_row gender cells = Ok (Some fencer) ->
      Forall (fun t => PyStr.strip t = t)
        [FencerProfile.licence fencer; FencerProfile.last_name fencer;
         FencerProfile.first_name fencer; FencerProfile.club fencer;
         FencerProfile.nation fencer; FencerProfile.handedness fencer])
  /\ (forall entry,
         parse_ranking_row gender weapon age_category season cells
         = Ok (Some entry) ->
         Forall (fun t => PyStr.strip t = t)
           [RankingEntry.competition entry; RankingEntry.venue entry;
            RankingEntry.nation entry; RankingEntry.category entry;
            RankingEntry.discipline entry]).
Proof.
  split.
  - intros fencer E.
    destruct (parse_fencer_row_fields _ _ _ E)
      as (_ & _ & (c0 & c1 & c2 & c3 & c4 & -> & -> & -> & -> & ->)
          & (c6 & ->)).
    repeat constructor; apply strip_idempotent.
  - intros entry E.
    destruct (parse_ranking_row_fields _ _ _ _ _ _ E)
      as (_ & _ & _ & (c1 & c2 & c3 & c4 & c5 & -> & -> & -> & -> & ->)).
    repeat constructor; apply strip_idempotent.
Qed.

Local Open Scope list_scope.

(** ** Numeric cells: reading back a printed number *)







(** ** Page links: what matches a page number *)






Remark page_2_matched_by_link_12 :
  has_page_link (fencers_view [Some "12"%string]) 2 = true.
Proof. reflexivity. Qed.

(** ** Cookie consent and country discovery *)

Section Discovery.

Context {W : Type} `{Browser W}.



Lemma keeps_consent_loop (selectors : list string) :
  keeps (W := W) (consent_loop selectors).
Proof.
  induction selectors as [|selector rest IH]; [apply keeps_ret|].
  cbn [consent_loop]. apply keeps_bind.
  - apply keeps_try_except; [|intros; apply keeps_ret].
    repeat (apply keeps_bind; [|intros _]);
      auto using keeps_drive, keeps_log_event, keeps_sleep, keeps_ret.
  - intros []; [apply keeps_ret | exact IH].
Qed.

Lemma handle_cookie_consent_keeps (s : Scraper W) :
  settings (snd (handle_cookie_consent s)) = settings s
  /\ history (snd (handle_cookie_consent s)) = history s.
Proof.
  unfold handle_cookie_consent, try_except_all.
  destruct (keeps_consent_loop consent_selectors s) as [Hs Hh].
  destruct (consent_loop consent_selectors s) as [[[]|e] s1];
    cbn [snd] in *; auto.
Qed.


Lemma country_values_length (options : list (option string)) :
  Forall (fun c => String.length c = 3%nat) (country_values options).
Proof.
  unfold country_values. apply Forall_forall. intros c Hin.
  apply in_flat_map in Hin. destruct Hin as ([v|] & _ & Hin);
    [|contradiction].
  destruct (truthy_str v); cbn [andb] in Hin; [|contradiction].
  destruct (Nat.eqb_spec (String.length v) 3); [|contradiction].
  destruct Hin as [<-|[]]. assumption.
Qed.

Lemma countries_loop_Some (selects : list (list (option string))) :
  forall (s s' : Scraper W) (cs : list string),
    countries_loop selects s = (Ok (Some cs), s') ->
    (exists options,
        In options selects /\ (50 < length options)%nat
        /\ cs = country_values options)
    /\ countries (filter_config s') = cs.
Proof.
  induction selects as [|options rest IH]; intros s s' cs E.
  - discriminate.
  - cbn [countries_loop] in E.
    destruct (Nat.ltb_spec 50 (length options)) as [Hbig|Hsmall].
    + unfold bind, log_event, ret in E. inversion E; subst.
      split; [|reflexivity].
      exists options. repeat split; [left; reflexivity | exact Hbig].
    + destruct (IH _ _ _ E) as [(o & Hin & Ho) Hc].
      split; [|exact Hc]. exists o. split; [right; exact Hin | exact Ho].
Qed.

Lemma countries_loop_frame (selects : list (list (option string))) :
  forall s : Scraper W, discovery_frame s (snd (countries_loop selects s)).
Proof.
  induction selects as [|options rest IH]; intros s.
  - repeat split.
  - cbn [countries_loop].
    destruct (50 <? length options)%nat; [|apply IH].
    repeat split.
Qed.

Lemma keeps_discovery_frame (s s' : Scraper W) :
  settings s' = settings s -> history s' = history s ->
  discovery_frame s s'.
Proof.
  unfold settings. intros Hs Hh. inversion Hs as [[Hd Hhl Hf Hr Hfc]].
  unfold discovery_frame. rewrite Hfc. repeat split; assumption.
Qed.

Lemma discovery_frame_trans (s1 s2 s3 : Scraper W) :
  discovery_frame s1 s2 -> discovery_frame s2 s3 -> discovery_frame s1 s3.
Proof.
  unfold discovery_frame.
  intros (A1 & A2 & A3 & A4 & A5 & A6 & A7 & A8)
         (B1 & B2 & B3 & B4 & B5 & B6 & B7 & B8).
  repeat split; congruence.
Qed.

Lemma get_countries_list_frame (s : Scraper W) :
  discovery_frame s (snd (get_countries_list s)).
Proof.
  unfold get_countries_list, try_except_all.
  assert (Hpre : forall s0 : Scraper W,
             discovery_frame s0
               (snd ((drive (Get (base_url ++ "/competitions/fencers")%string) ;;
                      total handle_cookie_consent ;;
                      drive (WaitPresent (ByCss "select") 10) ;;
                      d <- current_dom ;;
                      countries_loop (dom_selects d))%monad s0))).
  { intros s0. unfold bind at 1.
    pose proof (keeps_drive (Get (base_url ++ "/competitions/fencers")%string) s0)
      as [K1 K1'].
    destruct (drive (Get (base_url ++ "/competitions/fencers")%string) s0)
      as [[[]|e] s1]; cbn [snd] in *;
      [|apply keeps_discovery_frame; assumption].
    apply (discovery_frame_trans _ s1);
      [apply keeps_discovery_frame; assumption|].
    unfold bind at 1. unfold total at 1.
    pose proof (handle_cookie_consent_keeps s1) as [K2 K2'].
    destruct (handle_cookie_consent s1) as [[] s2]; cbn [snd] in *.
    apply (discovery_frame_trans _ s2);
      [apply keeps_discovery_frame; assumption|].
    unfold bind at 1.
    pose proof (keeps_drive (WaitPresent (ByCss "select") 10) s2) as [K3 K3'].
    destruct (drive (WaitPresent (ByCss "select") 10) s2)
      as [[[]|e] s3]; cbn [snd] in *;
      [|apply keeps_discovery_frame; assumption].
    apply (discovery_frame_trans _ s3);
      [apply keeps_discovery_frame; assumption|].
    unfold bind at 1. unfold current_dom.
    destruct (driver s3); [apply countries_loop_frame|].
    cbn [snd]. apply keeps_discovery_frame; reflexivity. }
  specialize (Hpre s).
  match goal with
  | |- context [match ?m s with _ => _ end] =>
      destruct (m s) as [[a|e] s1]
  end; cbn [snd] in *; [exact Hpre|].
  destruct Hpre as (A1 & A2 & A3 & A4 & A5 & A6 & A7 & A8).
  repeat split; assumption.
Qed.

(** X14.  Country discovery returns only three-character codes.  A
    non-empty result is also stored as the country list of the filter
    configuration; the other filter lists, the data collected so far and the
    fetch history are never touched. *)
Theorem get_countries_list_codes (s s' : Scraper W) (cs : list string) :
  get_countries_list s = (Some cs, s') ->
  Forall (fun c => String.length c = 3%nat) cs
  /\ (cs <> [] -> countries (filter_config s') = cs)
  /\ discovery_frame s s'.
Proof.
  intros E.
  pose proof (get_countries_list_frame s) as Hf. rewrite E in Hf.
  cbn [snd] in Hf. split; [|split; [|exact Hf]].
  - unfold get_countries_list, try_except_all in E.
    match type of E with
    | context [match ?m s with _ => _ end] =>
        destruct (m s) as [[a|e] s1] eqn:Eb
    end; inversion E; subst; [|constructor].
    apply bind_Ok in Eb. destruct Eb as ([] & s2 & _ & Eb).
    apply bind_Ok in Eb. destruct Eb as ([] & s3 & _ & Eb).
    apply bind_Ok in Eb. destruct Eb as ([] & s4 & _ & Eb).
    apply bind_Ok in Eb. destruct Eb as (d & s5 & _ & Eb).
    destruct (countries_loop_Some _ _ _ _ Eb) as [(o & _ & _ & ->) _].
    apply country_values_length.
  - intros Hne.
    unfold get_countries_list, try_except_all in E.
    match type of E with
    | context [match ?m s with _ => _ end] =>
        destruct (m s) as [[a|e] s1] eqn:Eb
    end; inversion E; subst; [|contradiction].
    apply bind_Ok in Eb. destruct Eb as ([] & s2 & _ & Eb).
    apply bind_Ok in Eb. destruct Eb as ([] & s3 & _ & Eb).
    apply bind_Ok in Eb. destruct Eb as ([] & s4 & _ & Eb).
    apply bind_Ok in Eb. destruct Eb as (d & s5 & _ & Eb).
    apply (countries_loop_Some _ _ _ _ Eb).
Qed.

End Discovery.

Lemma get_countries_list_codes_witness :
  exists s',
    get_countries_list (ready country_select_view)
    = (Some ("FRA" :: "ITA" :: repeat "HUN" 46)%string, s')
    /\ Forall (fun c => String.length c = 3%nat)
         ("FRA" :: "ITA" :: repeat "HUN" 46)%string
    /\ countries (filter_config s')
       = ("FRA" :: "ITA" :: repeat "HUN" 46)%string.
Proof.
  destruct (get_countries_list (ready country_select_view)) as [r s'] eqn:E.
  assert (Er : r = Some ("FRA" :: "ITA" :: repeat "HUN" 46)%string).
  { vm_compute in E. inversion E. reflexivity. }
  subst r. exists s'. split; [reflexivity|].
  destruct (get_countries_list_codes (ready country_select_view) s' _ E)
    as (Hlen & Hstore & _).
  split; [exact Hlen|]. apply Hstore. discriminate.
Defined.

(** On a site where no consent button becomes clickable the dialog handler
    logs nothing. *)
Remark quiet_site_logs_nothing :
  log (snd (handle_cookie_consent (ready (mkQuietSite small_select_view))))
  = [].
Proof. reflexivity. Qed.

(** ** Page fetchers: edge cases *)

Section FetcherEdges.

Context {W : Type} `{Browser W}.

(** X15.  A page fetch made before the driver is set up does not fail: it
    returns the empty list, logs the attribute error and leaves the browser
    and the data untouched. *)
Theorem fetch_without_driver (page : Z)
  (country first_name last_name gender weapon age_category season : string)
  (s : Scraper W) :
  driver s = false ->
  (fst (scrape_fencers_page page country first_name last_name gender s) = []
   /\ log (snd (scrape_fencers_page page country first_name last_name gender s))
      = log s ++ [ErrorFencersPage page AttributeError]
   /\ world (snd (scrape_fencers_page page country first_name last_name
                    gender s))
      = world s)
  /\ (fst (scrape_rankings gender weapon age_category season country s) = []
      /\ log (snd (scrape_rankings gender weapon age_category season country s))
         = log s ++ [ErrorRankings AttributeError]
      /\ world (snd (scrape_rankings gender weapon age_category season
                       country s))
         = world s).
Proof.
  intros Hd.
  assert (Ef : scrape_fencers_page page country first_name last_name gender s
               = ([], with_history
                        (history s ++ [FencersPageCall page country 0])
                        (with_log
                           (log s ++ [ErrorFencersPage page AttributeError])
                           s))).
  { unfold scrape_fencers_page, try_except_all, submit_fencer_search.
    unfold bind at 1. unfold bind at 1. unfold drive at 1. rewrite Hd.
    reflexivity. }
  assert (Er : scrape_rankings gender weapon age_category season country s
               = ([], with_log
                        (log s ++ [ErrorRankings AttributeError])
                        (with_history
                           (history s
                            ++ [RankingsCall gender weapon age_category season])
                           s))).
  { unfold scrape_rankings, try_except_all.
    unfold bind at 1. cbn [note_call]. unfold bind at 1.
    unfold drive at 1. cbn [with_history driver]. rewrite Hd.
    reflexivity. }
  rewrite Ef, Er. repeat split.
Qed.

Lemma extract_fencers_any_page (page page' : Z) (gender : string)
  (s : Scraper W) :
  fst (extract_fencers page gender s) = fst (extract_fencers page' gender s)
  /\ world (snd (extract_fencers page gender s))
     = world (snd (extract_fencers page' gender s)).
Proof.
  unfold extract_fencers, bind, current_dom.
  destruct (driver s); [|split; reflexivity].
  rewrite fencer_rows_loop_eq. split; reflexivity.
Qed.

(** X16.  A page number of 1 or less, zero and negative numbers included,
    is served like page 1: no page link is looked for, and the fetch returns
    the profiles of the first results page. *)
Theorem low_page_is_first_page (page : Z)
  (country first_name last_name gender : string) (s : Scraper W) :
  page <= 1 ->
  fst (scrape_fencers_page page country first_name last_name gender s)
  = fst (scrape_fencers_page 1 country first_name last_name gender s)
  /\ world (snd (scrape_fencers_page page country first_name last_name
                   gender s))
     = world (snd (scrape_fencers_page 1 country first_name last_name
                     gender s)).
Proof.
  intros Hpage.
  assert (Hgo : forall p, p <= 1 -> goto_page (W := W) p = ret true).
  { intros p Hp. unfold goto_page.
    destruct (Z.ltb_spec 1 p); [lia | reflexivity]. }
  unfold scrape_fencers_page, try_except_all.
  rewrite (Hgo page Hpage), (Hgo 1 (Z.le_refl 1)).
  unfold bind, ret.
  destruct (submit_fencer_search country first_name last_name gender s)
    as [[[]|e] s1]; [|split; reflexivity].
  destruct (extract_fencers_any_page page 1 gender s1) as [Hf Hw].
  destruct (extract_fencers page gender s1) as [[a|e] s2];
    destruct (extract_fencers 1 gender s1) as [[a'|e'] s2'];
    cbn [fst snd] in *; try discriminate; split;
    solve [congruence | reflexivity | assumption].
Qed.

End FetcherEdges.

Lemma fetch_without_driver_witness :
  fst (scrape_fencers_page 1 "FRA" "" "" "" (init (fencers_view []) true)) = []
  /\ fst (scrape_rankings "men" "foil" "cadet" "2024" ""
            (init (fencers_view []) true)) = [].
Proof.
  destruct (fetch_without_driver 1 "FRA" "" "" "men" "foil" "cadet" "2024"
              (init (fencers_view []) true) eq_refl)
    as [(Hf & _) (Hr & _)].
  split; [|exact Hr].
  destruct (fetch_without_driver 1 "FRA" "" "" "" "foil" "cadet" "2024"
              (init (fencers_view []) true) eq_refl)
    as [(Hf' & _) _].
  exact Hf'.
Defined.

Lemma low_page_is_first_page_witness :
  fst (scrape_fencers_page (-3) "FRA" "" "" "" (ready (fencers_view [])))
  = fst (scrape_fencers_page 1 "FRA" "" "" "" (ready (fencers_view [])))
  /\ fst (scrape_fencers_page (-3) "FRA" "" "" "" (ready (fencers_view [])))
     <> [].
Proof.
  split.
  - apply (low_page_is_first_page (-3) "FRA" "" "" ""
             (ready (fencers_view []))).
    lia.
  - vm_compute. discriminate.
Defined.

(** ** The sample run of [main] *)





Section MainRun.

Context {W : Type} `{Browser W}.







End MainRun.


(** ** Sweeps: the browser that does not start *)

Section LaunchFailure.

Context {W : Type} `{Browser W}.

(** X18.  Unlike the page fetchers, the sweeps do not absorb a failure to
    start the browser: when no driver is set and the launch raises, each
    sweep raises the same exception, fetches nothing and leaves the data
    collected so far as it was. *)
Theorem sweeps_propagate_launch_failure (fuel : nat) (max_pages : option Z)
  (countries_arg : option (list string)) (limit : option Z)
  (s : Scraper W) (e : Exn) :
  driver s = false ->
  fst (act (Launch (headless s)) (world s)) = Raise e ->
  (exists s',
      scrape_all_fencers fuel max_pages countries_arg s = Some (Raise e, s')
      /\ history s' = history s
      /\ fencers_data s' = fencers_data s)
  /\ fst (scrape_all_rankings limit s) = Raise e
  /\ history (snd (scrape_all_rankings limit s)) = history s
  /\ rankings_data (snd (scrape_all_rankings limit s)) = rankings_data s.
Proof.
  intros Hd Hl.
  unfold scrape_all_fencers, scrape_all_rankings, ensure_driver, setup_driver.
  rewrite Hd.
  destruct (act (Launch (headless s)) (world s)) as [[[]|e'] w];
    cbn [fst] in Hl; [discriminate|].
  inversion Hl; subst e'. split.
  - eexists. repeat split.
  - repeat split.
Qed.

(** X19.  A page fetch never changes the scraper's own fields: the driver
    flag, the headless flag, the data collected so far and the filter
    configuration are the same after a fencer page fetch or a rankings fetch
    as before, whatever the browser did. *)
Theorem fetchers_keep_settings (page : Z)
  (country first_name last_name gender weapon age_category season : string)
  (s : Scraper W) :
  settings (snd (scrape_fencers_page page country first_name last_name
                   gender s))
  = settings s
  /\ settings (snd (scrape_rankings gender weapon age_category season
                      country s))
     = settings s.
Proof.
  split.
  - apply scrape_fencers_page_frame.
  - apply scrape_rankings_frame.
Qed.

End LaunchFailure.

Lemma sweeps_propagate_launch_failure_witness :
  (exists s',
      scrape_all_fencers 3 (Some 2) (Some ["FRA"])
        (init (mkNoBrowser (fencers_view [])) true)
      = Some (Raise WebDriverException, s')
      /\ history s' = [])
  /\ fst (scrape_all_rankings (Some 10)
            (init (mkNoBrowser (fencers_view [])) true))
     = Raise WebDriverException.
Proof.
  destruct (@sweeps_propagate_launch_failure NoBrowser no_browser
              3 (Some 2) (Some ["FRA"])
              (Some 10) (init (mkNoBrowser (fencers_view [])) true)
              WebDriverException eq_refl eq_refl)
    as [(s' & E & Hh & _) (Hr & _)].
  split; [|exact Hr]. exists s'. split; [exact E | exact Hh].
Defined.

(** ** Rows in plain ASCII are never dropped *)













Lemma parsed_numbers_nonnegative_witness :
  0 <= RankingEntry.rank paris_entry
  /\ (0 <= RankingEntry.coefficient paris_entry)%Q.
Proof.
  apply (proj2 (parsed_numbers_nonnegative "men" "foil" "cadet" "2024"
                  paris_row)).
  reflexivity.
Defined.

Lemma parsed_texts_trimmed_witness :
  Forall (fun t => PyStr.strip t = t)
    [RankingEntry.competition paris_entry; RankingEntry.venue paris_entry;
     RankingEntry.nation paris_entry; RankingEntry.category paris_entry;
     RankingEntry.discipline paris_entry].
Proof.
  apply (proj2 (parsed_texts_trimmed "men" "foil" "cadet" "2024" paris_row)).
  reflexivity.
Defined.
